(** * Mountain Project route scraper (TESTSCRAPER.py): model and properties

  A shallow embedding of [MountainProjectScraper]: the facet extractors,
  the route assembler, the link discoverer, the batch driver and the CSV
  exporter, over a model of the parsed document tree (BeautifulSoup), of
  [urllib.parse.urljoin], of the regular expressions the code compiles
  and of binary64 arithmetic.

  Python [str] values are modelled by [string]; a character is a code
  point below 256. What the scraper prints and the delay before a
  request leave no trace in the values it returns and are left out, as
  are [save_to_json] and [main]. *)

From Stdlib Require Import ZArith Lia Ascii String List.
From Stdlib Require Import Floats.SpecFloat.
From stdpp Require Import base option list gmap strings.

Set Warnings "-register-all".
Open Scope string_scope.

(* ================================================================== *)
(** * Python [str] operations *)
(* ================================================================== *)

Module PyStr.

(** [str.isspace] on one character (also the class [\s] of [re]). *)
Definition is_space (c : ascii) : bool :=
  let n := nat_of_ascii c in
  ((9 <=? n) && (n <=? 13) || (28 <=? n) && (n <=? 32)
   || (n =? 133) || (n =? 160))%nat.

(** [str.isdigit] on one character below 128 (also the class [\d]). *)
Definition is_digit (c : ascii) : bool :=
  let n := nat_of_ascii c in ((48 <=? n) && (n <=? 57))%nat.

Definition is_upper (c : ascii) : bool :=
  let n := nat_of_ascii c in ((65 <=? n) && (n <=? 90))%nat.

Definition is_lower (c : ascii) : bool :=
  let n := nat_of_ascii c in ((97 <=? n) && (n <=? 122))%nat.

Definition is_alpha (c : ascii) : bool := is_upper c || is_lower c.

(** Lower-casing of the ASCII letters. *)
Definition lower_char (c : ascii) : ascii :=
  if is_upper c then ascii_of_nat (nat_of_ascii c + 32) else c.

Fixpoint lower (s : string) : string :=
  match s with
  | "" => ""
  | String c s' => String (lower_char c) (lower s')
  end.

Fixpoint lstrip (s : string) : string :=
  match s with
  | "" => ""
  | String c s' => if is_space c then lstrip s' else s
  end.

Fixpoint rstrip (s : string) : string :=
  match s with
  | "" => ""
  | String c s' =>
      match rstrip s' with
      | "" => if is_space c then "" else String c ""
      | r => String c r
      end
  end.

(** [s.strip()] *)
Definition strip (s : string) : string := lstrip (rstrip s).

(** [sub in s] *)
Fixpoint contains (sub s : string) : bool :=
  String.prefix sub s
  || match s with
     | "" => false
     | String _ s' => contains sub s'
     end.

(** [sep.join(l)] *)
Definition join (sep : string) (l : list string) : string :=
  String.concat sep l.

(** [s[:n]] for [n >= 0] *)
Fixpoint take (n : nat) (s : string) : string :=
  match n, s with
  | S n', String c s' => String c (take n' s')
  | _, _ => ""
  end.

(** [s[n:]] for [n >= 0] *)
Fixpoint drop (n : nat) (s : string) : string :=
  match n, s with
  | S n', String _ s' => drop n' s'
  | _, _ => s
  end.

(** [s.find(c)] for a one-character [c]: [None] stands for [-1]. *)
Fixpoint find_char (c : ascii) (s : string) : option nat :=
  match s with
  | "" => None
  | String d s' =>
      if Ascii.eqb c d then Some 0%nat else S <$> find_char c s'
  end.

(** [s.split(c)] for a one-character separator. *)
Fixpoint split (c : ascii) (s : string) : list string :=
  match s with
  | "" => [""]
  | String d s' =>
      if Ascii.eqb c d then "" :: split c s'
      else match split c s' with
           | [] => [String d ""]
           | w :: ws => String d w :: ws
           end
  end.

(** [s.replace(c, "")] for a one-character [c]. *)
Fixpoint remove_char (c : ascii) (s : string) : string :=
  match s with
  | "" => ""
  | String d s' =>
      if Ascii.eqb c d then remove_char c s' else String d (remove_char c s')
  end.

Fixpoint forallb (p : ascii → bool) (s : string) : bool :=
  match s with
  | "" => true
  | String c s' => p c && forallb p s'
  end.

(** [s] starts with a character satisfying [p]. *)
Definition starts_with (p : ascii → bool) (s : string) : bool :=
  match s with
  | "" => false
  | String c _ => p c
  end.

(** The longest prefix of characters satisfying [p], and the rest. *)
Fixpoint span (p : ascii → bool) (s : string) : string * string :=
  match s with
  | "" => ("", "")
  | String c s' =>
      if p c then let '(a, b) := span p s' in (String c a, b) else ("", s)
  end.

End PyStr.

(* ================================================================== *)
(** * The parsed document (BeautifulSoup with [html.parser]) *)
(* ================================================================== *)

Module Bs4.

(** The classes of string a parsed tree holds. [get_text] of an ordinary
    tag keeps [NavigableString] and [CData] only. *)
Inductive string_kind :=
| NavigableString | CData | Comment | Script | Stylesheet
| TemplateString | Doctype.

#[global] Instance string_kind_eq_dec : EqDecision string_kind.
Proof. solve_decision. Defined.

(** A page element. A tag carries its name, its [class] attribute (the
    one multi-valued attribute the scraper reads, a list of tokens when
    present), its single-valued attributes and its contents. The
    [BeautifulSoup] object is the tag named ["[document]"]. *)
Inductive node :=
| Str (k : string_kind) (s : string)
| Elem (name : string) (classes : option (list string))
       (attrs : gmap string string) (children : list node).

Definition soup_of (contents : list node) : node :=
  Elem "[document]" None ∅ contents.

Definition is_elem (n : node) : bool :=
  match n with Elem _ _ _ _ => true | Str _ _ => false end.

Definition tag_name (n : node) : option string :=
  match n with Elem nm _ _ _ => Some nm | Str _ _ => None end.

Definition contents (n : node) : list node :=
  match n with Elem _ _ _ cs => cs | Str _ _ => [] end.

(** [tag.get(attr)] for a single-valued attribute *)
Definition get (a : string) (n : node) : option string :=
  match n with Elem _ _ at_ _ => at_ !! a | Str _ _ => None end.

(** [tag.get('class', [])] *)
Definition get_class (n : node) : list string :=
  match n with Elem _ (Some cl) _ _ => cl | _ => [] end.

(** A page element with where it was found: its ancestors, nearest
    first, and the siblings that follow it. *)
Record located := Located {
  ancestors : list node;
  element : node;
  next_siblings : list node
}.

(** [tag.descendants], in document order, each with its position. *)
Fixpoint walk (up : list node) (n : node) : list located :=
  match n with
  | Str _ _ => []
  | Elem _ _ _ cs =>
      (fix go (l : list node) : list located :=
         match l with
         | [] => []
         | c :: l' => Located (n :: up) c l' :: walk (n :: up) c ++ go l'
         end) cs
  end.

Definition descendants (n : node) : list node := element <$> walk [] n.

(** ** Searching: [find_all] and [find] with the criteria the scraper uses *)

(** [find_all] keeps the descendants a criterion accepts, in document
    order; [find] is the first of them. *)
Definition find_all (crit : node → bool) (n : node) : list node :=
  List.filter crit (descendants n).

Definition find (crit : node → bool) (n : node) : option node :=
  head (find_all crit n).

Definition find_all_located (crit : node → bool) (n : node) : list located :=
  List.filter (λ d, crit (element d)) (walk [] n).

(** The name criterion: [find('span', ...)]. *)
Definition named (nm : string) (n : node) : bool :=
  bool_decide (tag_name n = Some nm).

(** [find_all(['h3', 'h4', 'h5'], ...)] *)
Definition named_any (nms : list string) (n : node) : bool :=
  match tag_name n with
  | Some nm => bool_decide (nm ∈ nms)
  | None => false
  end.

(** The [class_='c'] criterion: one of the class tokens is [c], or the
    tokens joined by a space are [c]. *)
Definition class_ (c : string) (n : node) : bool :=
  match n with
  | Elem _ (Some cl) _ _ =>
      bool_decide (c ∈ cl) || bool_decide (PyStr.join " " cl = c)
  | _ => false
  end.

(** The [{'id': v}] criterion, for a single-valued attribute. *)
Definition attr_is (a v : string) (n : node) : bool :=
  bool_decide (get a n = Some v).

(** The [href=True] criterion: the attribute is present. *)
Definition has_attr (a : string) (n : node) : bool :=
  bool_decide (is_Some (get a n)).

(** The [href=re.compile(...)] criterion: present and the pattern is
    found in the value. *)
Definition attr_search (a : string) (re_search : string → bool) (n : node) : bool :=
  match get a n with
  | Some v => re_search v
  | None => false
  end.

(** [tag.string]: the single string a tag holds, looked for through
    single children. *)
Fixpoint string_of (n : node) : option string :=
  match n with
  | Str _ s => Some s
  | Elem _ _ _ [c] => string_of c
  | Elem _ _ _ _ => None
  end.

(** The [string=re.compile(...)] criterion on a tag. *)
Definition string_search (re_search : string → bool) (n : node) : bool :=
  match n with
  | Elem _ _ _ _ =>
      match string_of n with
      | Some s => re_search s
      | None => false
      end
  | Str _ _ => false
  end.

(** [find(string=re.compile(...))], with no name: the strings of the
    tree, of any class. *)
Definition is_string_matching (re_search : string → bool) (n : node) : bool :=
  match n with
  | Str _ s => re_search s
  | Elem _ _ _ _ => false
  end.

(** ** Text *)

Definition interesting_string_types (nm : string) : list string_kind :=
  if bool_decide (nm = "script") then [Script]
  else if bool_decide (nm = "style") then [Stylesheet]
  else if bool_decide (nm = "template") then [TemplateString]
  else [NavigableString; CData].

(** [tag._all_strings(strip)] *)
Definition all_strings (strip : bool) (n : node) : list string :=
  match n with
  | Str _ _ => []
  | Elem nm _ _ _ =>
      omap (λ d,
             match d with
             | Str k s =>
                 if bool_decide (k ∈ interesting_string_types nm) then
                   if strip then
                     let s' := PyStr.strip s in
                     if bool_decide (s' = "") then None else Some s'
                   else Some s
                 else None
             | Elem _ _ _ _ => None
             end)
           (descendants n)
  end.

(** [tag.get_text(separator, strip)] *)
Definition get_text (separator : string) (strip : bool) (n : node) : string :=
  PyStr.join separator (all_strings strip n).

(** ** Mutation *)

(** The tree after [decompose()] of every descendant that [crit]
    accepts. *)
Fixpoint decompose_all (crit : node → bool) (n : node) : node :=
  match n with
  | Str _ _ => n
  | Elem nm cl at_ cs =>
      Elem nm cl at_
        ((fix go (l : list node) : list node :=
            match l with
            | [] => []
            | c :: l' =>
                if crit c then go l' else decompose_all crit c :: go l'
            end) cs)
  end.

(** The tree in which the first descendant that [crit] accepts (the one
    [find] returns) has become [f] of it: what the other holders of the
    tree see after that tag was changed in place. *)
Fixpoint update_first (crit : node → bool) (f : node → node) (n : node)
  : option node :=
  match n with
  | Str _ _ => None
  | Elem nm cl at_ cs =>
      Elem nm cl at_ <$>
        ((fix go (l : list node) : option (list node) :=
            match l with
            | [] => None
            | c :: l' =>
                if crit c then Some (f c :: l')
                else match update_first crit f c with
                     | Some c' => Some (c' :: l')
                     | None => cons c <$> go l'
                     end
            end) cs)
  end.

(** ** CSS selection ([soup.select]) for the selectors the scraper uses *)

(** [tag[attr*="v"]] *)
Definition select_attr_contains (nm a v : string) (n : node) : list node :=
  find_all (λ d, named nm d && attr_search a (PyStr.contains v) d) n.

(** [anc tag]: the tags named [nm] below an element that [anc]
    accepts, in document order. *)
Definition select_below (anc : node → bool) (nm : string) (n : node) : list node :=
  element <$>
    List.filter (λ d, named nm (element d) && existsb anc (ancestors d))
                (walk [] n).

(** [.c]: the class selector *)
Definition css_class (c : string) (n : node) : bool :=
  bool_decide (c ∈ get_class n).

(** [#i]: the id selector *)
Definition css_id (i : string) (n : node) : bool := attr_is "id" i n.

End Bs4.

(* ================================================================== *)
(** * The regular expressions the scraper compiles *)
(* ================================================================== *)

Module Re.

(** [re.compile(r'(Getting There|Access|Approach)', re.I).search(s)] *)
Definition access_heading (s : string) : bool :=
  let l := PyStr.lower s in
  PyStr.contains "getting there" l || PyStr.contains "access" l
  || PyStr.contains "approach" l.

(** [re.compile(r'/user/').search(s)] *)
Definition user_link (s : string) : bool := PyStr.contains "/user/" s.

(** [re.compile(r'elevation', re.I).search(s)] *)
Definition elevation_word (s : string) : bool :=
  PyStr.contains "elevation" (PyStr.lower s).

(** [c?] at the head of [s]: what it takes, and what follows. *)
Definition optional_char (c : ascii) (s : string) : string * string :=
  match s with
  | String d s' => if Ascii.eqb d c then (String c "", s') else ("", s)
  | "" => ("", "")
  end.

(** [-?\d+\.?\d*] at the head of [s]: the sign, the integer digits, the
    dot and the fraction digits it takes, and what follows. Every
    quantifier is greedy, and giving back what one took never lets the
    rest of either pattern below match. *)
Definition number_at (s : string) : option (string * string * string * string * string) :=
  let '(sign, s1) := optional_char "-" s in
  let '(d1, s2) := PyStr.span PyStr.is_digit s1 in
  if bool_decide (d1 = "") then None
  else
    let '(dot, s3) := optional_char "." s2 in
    let '(d2, s4) := PyStr.span PyStr.is_digit s3 in
    Some (sign, d1, dot, d2, s4).

(** [(-?\d+\.?\d* ),\s*(-?\d+\.?\d* )] matched at the head of [s]: groups
    1 and 2. *)
Definition coord_at (s : string) : option (string * string) :=
  match number_at s with
  | Some (sg, d1, dot, d2, String "," r) =>
      match number_at (snd (PyStr.span PyStr.is_space r)) with
      | Some (sg', d1', dot', d2', _) =>
          Some (sg ++ d1 ++ dot ++ d2, sg' ++ d1' ++ dot' ++ d2')
      | None => None
      end
  | _ => None
  end.

(** [coord_pattern.search(s)]: the leftmost match. *)
Fixpoint coord_search (s : string) : option (string * string) :=
  match coord_at s with
  | Some g => Some g
  | None =>
      match s with
      | "" => None
      | String _ s' => coord_search s'
      end
  end.

(** [(\d+)\s*(?:ft|feet|m|meters)], ignoring case, matched at the head
    of [s]: group 1. *)
Definition elevation_at (s : string) : option string :=
  let '(d, r) := PyStr.span PyStr.is_digit s in
  if bool_decide (d = "") then None
  else
    let u := PyStr.lower (snd (PyStr.span PyStr.is_space r)) in
    if String.prefix "ft" u || String.prefix "feet" u
       || String.prefix "m" u || String.prefix "meters" u
    then Some d else None.

(** [re.search(r'(\d+)\s*(?:ft|feet|m|meters)', s, re.I)]: group 1 of the
    leftmost match. *)
Fixpoint elevation_search (s : string) : option string :=
  match elevation_at s with
  | Some g => Some g
  | None =>
      match s with
      | "" => None
      | String _ s' => elevation_search s'
      end
  end.

End Re.

(* ================================================================== *)
(** * Exceptions *)
(* ================================================================== *)

Inductive exn := ValueError | OverflowError | ZeroDivisionError.

(** The outcome of code that may raise. *)
Inductive result (A : Type) :=
| Ok (a : A)
| Raise (e : exn).
Arguments Ok {A} a.
Arguments Raise {A} e.

#[global] Instance result_ret : MRet result := λ A a, Ok a.

#[global] Instance result_bind : MBind result := λ A B k r,
  match r with
  | Ok a => k a
  | Raise e => Raise e
  end.

#[global] Instance result_fmap : FMap result := λ A B f r,
  match r with
  | Ok a => Ok (f a)
  | Raise e => Raise e
  end.

(** A loop that calls [f] on each item in turn and stops at the first
    exception. *)
Fixpoint for_each {A B} (f : A → result B) (l : list A) : result (list B) :=
  match l with
  | [] => Ok []
  | a :: l' => b ← f a; bs ← for_each f l'; Ok (b :: bs)
  end.

(* ================================================================== *)
(** * Python numbers: [int] and binary64 [float] *)
(* ================================================================== *)

Module Float.

Local Open Scope Z_scope.

(** The integer nearest to [a / b] for [0 <= a], [0 < b], halves to
    even. *)
Definition round_half_even_div (a b : Z) : Z :=
  let q := a / b in
  match 2 * (a mod b) ?= b with
  | Lt => q
  | Gt => q + 1
  | Eq => if Z.even q then q else q + 1
  end.

(** [a / (b * 2 ^ e)] as a quotient of two integers. *)
Definition scaled (a b e : Z) : Z * Z :=
  if 0 <=? e then (a, b * 2 ^ e) else (a * 2 ^ (- e), b).

(** The exponent of the binary64 number nearest to [a / b], for [0 < a]
    and [0 < b]: the [e] with [2^52 <= a / (b * 2^e) < 2^53], and
    [-1074] in the subnormal range. *)
Definition exponent_of (a b : Z) : Z :=
  let e0 := Z.log2 a - Z.log2 b - 53 in
  let '(n, d) := scaled a b e0 in
  Z.max (if n / d <? 2 ^ 53 then e0 else e0 + 1) (-1074).

(** The binary64 number nearest to [a / b] (halves to even), for [0 < a]
    and [0 < b]; infinity above the range. *)
Definition of_ratio (a b : Z) : spec_float :=
  let e := exponent_of a b in
  let '(n, d) := scaled a b e in
  let m := round_half_even_div n d in
  let '(m, e) := if m =? 2 ^ 53 then (2 ^ 52, e + 1) else (m, e) in
  if m =? 0 then S754_zero false
  else if 971 <? e then S754_infinity false
  else S754_finite false (Z.to_pos m) e.

(** A signed quotient: [neg] tells the sign, [0 <= a], [0 < b]. *)
Definition of_signed_ratio (neg : bool) (a b : Z) : spec_float :=
  let x := if a =? 0 then S754_zero false else of_ratio a b in
  if neg then SFopp x else x.

(** [a / b] on [int]s: the correctly rounded quotient. *)
Definition int_true_div (a b : Z) : result spec_float :=
  if b =? 0 then Raise ZeroDivisionError
  else
    let neg := negb (Bool.eqb (a <? 0) (b <? 0)) && negb (a =? 0)
               || (a =? 0) && (b <? 0) in
    match of_signed_ratio neg (Z.abs a) (Z.abs b) with
    | S754_infinity _ => Raise OverflowError
    | x => Ok x
    end.

(** [round(x, 1)] on a [float]: the decimal with one digit after the
    point nearest to [x] (halves to even), read back as a [float]. *)
Definition round1 (x : spec_float) : spec_float :=
  match x with
  | S754_finite s m e =>
      let '(n, d) := scaled (10 * Z.pos m) 1 (- e) in
      of_signed_ratio s (round_half_even_div n d) 10
  | _ => x
  end.

(** The value of a string of decimal digits. *)
Fixpoint digits_value (acc : Z) (s : string) : Z :=
  match s with
  | "" => acc
  | String c s' =>
      digits_value (10 * acc + (Z.of_nat (nat_of_ascii c) - 48)) s'
  end.

(** [float(s)] on the texts [-?\d+\.?\d*]; [ValueError] elsewhere stands
    for the other texts, which the scraper never passes. *)
Definition of_string (s : string) : result spec_float :=
  match Re.number_at s with
  | Some (sg, d1, dot, d2, "") =>
      Ok (of_signed_ratio (bool_decide (sg = "-"))
            (digits_value 0 (d1 ++ d2)) (10 ^ Z.of_nat (String.length d2)))
  | _ => Raise ValueError
  end.

(** A Python number. *)
Inductive number :=
| PyInt (z : Z)
| PyFloat (x : spec_float).

(** [n > 0] *)
Definition gt0 (n : number) : bool :=
  match n with
  | PyInt z => 0 <? z
  | PyFloat x => SFltb (S754_zero false) x
  end.

(** [round(n, 1)] *)
Definition round_1 (n : number) : number :=
  match n with
  | PyInt z => PyInt z
  | PyFloat x => PyFloat (round1 x)
  end.

(** The [float] written [k/10] in decimal, as [float] reads it. *)
Definition tenths (k : Z) : spec_float :=
  of_signed_ratio (k <? 0) (Z.abs k) 10.

End Float.

(* ================================================================== *)
(** * [urllib.parse.urljoin] *)
(* ================================================================== *)

Module Urllib.

Definition uses_relative : list string :=
  [""; "ftp"; "http"; "gopher"; "nntp"; "imap"; "wais"; "file"; "https";
   "shttp"; "mms"; "prospero"; "rtsp"; "rtspu"; "sftp"; "svn"; "svn+ssh";
   "ws"; "wss"].

Definition uses_netloc : list string :=
  [""; "ftp"; "http"; "gopher"; "nntp"; "telnet"; "imap"; "wais"; "file";
   "mms"; "https"; "shttp"; "snews"; "prospero"; "rtsp"; "rtspu"; "rsync";
   "svn"; "svn+ssh"; "sftp"; "nfs"; "git"; "git+ssh"; "ws"; "wss"].

Definition uses_params : list string :=
  [""; "ftp"; "hdl"; "prospero"; "http"; "imap"; "https"; "shttp"; "rtsp";
   "rtspu"; "sip"; "sips"; "mms"; "sftp"; "tel"].

(** A letter, a digit, [+], [-] or [.] *)
Definition scheme_char (c : ascii) : bool :=
  PyStr.is_alpha c || PyStr.is_digit c
  || Ascii.eqb c "+" || Ascii.eqb c "-" || Ascii.eqb c ".".

(** A C0 control character or a space *)
Definition c0_or_space (c : ascii) : bool := (nat_of_ascii c <=? 32)%nat.

Definition tab : ascii := ascii_of_nat 9.
Definition lf : ascii := ascii_of_nat 10.
Definition cr : ascii := ascii_of_nat 13.

Definition remove_unsafe (s : string) : string :=
  PyStr.remove_char lf (PyStr.remove_char cr (PyStr.remove_char tab s)).

(** What [urlsplit] does to the text before it reads it: the leading
    control characters and spaces go, and every tab and line break. *)
Definition clean_url (url : string) : string :=
  remove_unsafe (snd (PyStr.span c0_or_space url)).

(** [s.rstrip(chars)] for the characters [c0_or_space] accepts *)
Fixpoint rstrip_c0 (s : string) : string :=
  match s with
  | "" => ""
  | String c s' =>
      match rstrip_c0 s' with
      | "" => if c0_or_space c then "" else String c ""
      | r => String c r
      end
  end.

(** The same for the default scheme, which is stripped at both ends. *)
Definition clean_scheme (scheme : string) : string :=
  remove_unsafe (rstrip_c0 (snd (PyStr.span c0_or_space scheme))).

(** The scheme a cleaned text starts with, lower-cased, and the rest. *)
Definition split_scheme (url : string) : option (string * string) :=
  match PyStr.find_char ":" url, url with
  | Some (S i), String c _ =>
      if PyStr.is_alpha c && PyStr.forallb scheme_char (PyStr.take (S i) url)
      then Some (PyStr.lower (PyStr.take (S i) url), PyStr.drop (S (S i)) url)
      else None
  | _, _ => None
  end.

(** [s.split(c, 1)] when [c] occurs in [s] *)
Definition split_once (c : ascii) (s : string) : option (string * string) :=
  match PyStr.find_char c s with
  | Some i => Some (PyStr.take i s, PyStr.drop (S i) s)
  | None => None
  end.

Definition is_delim (c : ascii) : bool :=
  Ascii.eqb c "/" || Ascii.eqb c "?" || Ascii.eqb c "#".

Definition has_char (c : ascii) (s : string) : bool :=
  bool_decide (is_Some (PyStr.find_char c s)).

Record SplitResult := {
  scheme : string;
  netloc : string;
  path : string;
  query : string;
  fragment : string
}.

(** [urlsplit(url, scheme)]. [ValueError] is the refusal of an authority
    with one square bracket and not the other. *)
Definition urlsplit (url default : string) : result SplitResult :=
  let url := clean_url url in
  let default := clean_scheme default in
  let '(sch, url) :=
    match split_scheme url with
    | Some (s, rest) => (s, rest)
    | None => (default, url)
    end in
  '(nl, url) ←
    (if String.prefix "//" url then
       let '(nl, rest) := PyStr.span (λ c, negb (is_delim c)) (PyStr.drop 2 url) in
       if has_char "[" nl && negb (has_char "]" nl)
          || has_char "]" nl && negb (has_char "[" nl)
       then Raise ValueError
       else Ok (nl, rest)
     else Ok ("", url));
  let '(url, frag) :=
    match split_once "#" url with
    | Some (u, f) => (u, f)
    | None => (url, "")
    end in
  let '(url, qry) :=
    match split_once "?" url with
    | Some (u, q) => (u, q)
    | None => (url, "")
    end in
  Ok {| scheme := sch; netloc := nl; path := url; query := qry; fragment := frag |}.

(** The index of the last [c] in [s] *)
Fixpoint rfind_char (c : ascii) (s : string) : option nat :=
  match s with
  | "" => None
  | String d s' =>
      match rfind_char c s' with
      | Some i => Some (S i)
      | None => if Ascii.eqb c d then Some 0%nat else None
      end
  end.

(** [_splitparams(url)]: the parameters of the last path segment *)
Definition splitparams (url : string) : string * string :=
  match rfind_char "/" url with
  | Some j =>
      match PyStr.find_char ";" (PyStr.drop j url) with
      | Some i => (PyStr.take (j + i) url, PyStr.drop (S (j + i)) url)
      | None => (url, "")
      end
  | None =>
      match PyStr.find_char ";" url with
      | Some i => (PyStr.take i url, PyStr.drop (S i) url)
      | None => (PyStr.take (String.length url - 1) url, url)
      end
  end.

(** [urlparse(url, scheme)]: the split result and the parameters *)
Definition urlparse (url default : string) : result (SplitResult * string) :=
  r ← urlsplit url default;
  if bool_decide (scheme r ∈ uses_params) && has_char ";" (path r) then
    let '(p, params) := splitparams (path r) in
    Ok ({| scheme := scheme r; netloc := netloc r; path := p;
           query := query r; fragment := fragment r |}, params)
  else Ok (r, "").

(** [urlunsplit] *)
Definition urlunsplit (r : SplitResult) : string :=
  let url := path r in
  let url :=
    if negb (bool_decide (netloc r = ""))
       || negb (bool_decide (scheme r = ""))
          && bool_decide (scheme r ∈ uses_netloc)
          && negb (String.prefix "//" url)
    then
      "//" ++ netloc r
      ++ (if negb (bool_decide (url = "")) && negb (String.prefix "/" url)
          then "/" ++ url else url)
    else url in
  let url := if bool_decide (scheme r = "") then url else scheme r ++ ":" ++ url in
  let url := if bool_decide (query r = "") then url else url ++ "?" ++ query r in
  if bool_decide (fragment r = "") then url else url ++ "#" ++ fragment r.

(** [urlunparse] *)
Definition urlunparse (r : SplitResult) (params : string) : string :=
  urlunsplit
    (if bool_decide (params = "") then r
     else {| scheme := scheme r; netloc := netloc r;
             path := path r ++ ";" ++ params;
             query := query r; fragment := fragment r |}).

(** The loop of [urljoin] over the path segments: [..] pops, [.] is
    skipped. *)
Fixpoint resolve_segments (resolved : list string) (segs : list string) : list string :=
  match segs with
  | [] => resolved
  | seg :: segs' =>
      if bool_decide (seg = "..") then resolve_segments (removelast resolved) segs'
      else if bool_decide (seg = ".") then resolve_segments resolved segs'
      else resolve_segments (resolved ++ [seg])%list segs'
  end.

(** [segments[1:-1] = filter(None, segments[1:-1])] *)
Definition drop_empty_inner (segs : list string) : list string :=
  match segs with
  | [] => []
  | [a] => [a]
  | a :: rest =>
      (a :: List.filter (λ s, negb (bool_decide (s = ""))) (removelast rest)
         ++ [List.last rest ""])%list
  end.

(** [urljoin(base, url)] *)
Definition urljoin (base url : string) : result string :=
  if bool_decide (base = "") then Ok url
  else if bool_decide (url = "") then Ok base
  else
    '(b, bparams) ← urlparse base "";
    '(u, params) ← urlparse url (scheme b);
    if negb (bool_decide (scheme u = scheme b))
       || negb (bool_decide (scheme u ∈ uses_relative))
    then Ok url
    else if bool_decide (scheme u ∈ uses_netloc)
            && negb (bool_decide (netloc u = ""))
    then Ok (urlunparse u params)
    else
      let nl := if bool_decide (scheme u ∈ uses_netloc) then netloc b else netloc u in
      if bool_decide (path u = "") && bool_decide (params = "") then
        Ok (urlunparse
              {| scheme := scheme u; netloc := nl; path := path b;
                 query := if bool_decide (query u = "") then query b else query u;
                 fragment := fragment u |} bparams)
      else
        let base_parts := PyStr.split "/" (path b) in
        let base_parts :=
          if bool_decide (List.last base_parts "" = "") then base_parts
          else removelast base_parts in
        let segments :=
          if String.prefix "/" (path u) then PyStr.split "/" (path u)
          else drop_empty_inner (base_parts ++ PyStr.split "/" (path u)) in
        let resolved := resolve_segments [] segments in
        let resolved :=
          if bool_decide (List.last segments "" = ".")
             || bool_decide (List.last segments "" = "..")
          then (resolved ++ [""])%list else resolved in
        let p := PyStr.join "/" resolved in
        Ok (urlunparse
              {| scheme := scheme u; netloc := nl;
                 path := if bool_decide (p = "") then "/" else p;
                 query := query u; fragment := fragment u |} params).

(** The scheme [urlsplit] reads at the head of a text, [""] when it
    reads none. *)
Definition url_scheme (url : string) : string :=
  match split_scheme (clean_url url) with
  | Some (s, _) => s
  | None => ""
  end.

(** An absolute URL: it names its scheme. *)
Definition is_absolute (url : string) : bool :=
  negb (bool_decide (url_scheme url = "")).

End Urllib.

(* ================================================================== *)
(** * The scraper *)
(* ================================================================== *)

Import Bs4.
Open Scope list_scope.

(** A rating [dict]: the keys the extractor may set, each absent or
    present. *)
Record Rating := {
  stars : option Z;
  user : option string;
  comment : option string
}.

(** The location [dict], by its keys. *)
Record Location := {
  latitude : option spec_float;
  longitude : option spec_float;
  area_hierarchy : option (list string);
  elevation : option string
}.

Record Route := {
  name : string;
  difficulty : string;
  description : string;
  access_info : string;
  user_ratings : list Rating;
  location : Location;
  images : list string;
  url : string
}.

(** [self.base_url] *)
Definition base_url : string := "https://www.mountainproject.com".

(** [a or b] on the results of [find]: a tag counts as true whatever it
    holds. *)
Definition or_find (a b : option node) : option node :=
  match a with
  | Some x => Some x
  | None => b
  end.

(** The truth value of [tag.get(attr)]: a string that is not empty. *)
Definition truthy (v : option string) : bool :=
  match v with
  | Some s => negb (bool_decide (s = ""))
  | None => false
  end.

Definition extract_route_basic_info (soup : node) : gmap string string :=
  let route_info : gmap string string := ∅ in
  let name_elem := find (named "h1") soup in
  let route_info :=
    <["name" := match name_elem with
                | Some e => get_text "" true e
                | None => "N/A"
                end]> route_info in
  let grade_elem :=
    or_find (find (λ n, named "span" n && class_ "rateYDS" n) soup)
      (or_find (find (λ n, named "span" n && class_ "rateHueco" n) soup)
               (find (λ n, named "span" n && class_ "rateVScale" n) soup)) in
  let grade_elem :=
    match grade_elem with
    | Some e => Some e
    | None => find (λ n, named "h2" n && class_ "inline-block mr-2" n) soup
    end in
  <["difficulty" := match grade_elem with
                    | Some e => get_text "" true e
                    | None => "N/A"
                    end]> route_info.

Definition is_fr_view (n : node) : bool := named "div" n && class_ "fr-view" n.

Definition is_route_description (n : node) : bool :=
  named "div" n && attr_is "id" "route-description" n.

Definition script_or_style (n : node) : bool := named_any ["script"; "style"] n.

(** [desc_section]: the content block, by class first, by id second *)
Definition desc_section (soup : node) : option node :=
  or_find (find is_fr_view soup) (find is_route_description soup).

(** The description, and the document as the later extractors see it:
    the scripts and styles of the description block are gone from it. *)
Definition extract_description (soup : node) : string * node :=
  match desc_section soup with
  | Some d =>
      let crit :=
        match find is_fr_view soup with
        | Some _ => is_fr_view
        | None => is_route_description
        end in
      (get_text " " true (decompose_all script_or_style d),
       default soup (update_first crit (decompose_all script_or_style) soup))
  | None => ("No description available", soup)
  end.

(** [header.find_next_sibling()]: the next sibling that is a tag *)
Definition find_next_sibling (h : located) : option node :=
  head (List.filter is_elem (next_siblings h)).

Definition extract_access_info (soup : node) : string :=
  let access_headers :=
    find_all_located
      (λ n, named_any ["h3"; "h4"; "h5"] n && string_search Re.access_heading n)
      soup in
  let access_info :=
    omap (λ header,
           match find_next_sibling header with
           | Some next_elem =>
               if named_any ["p"; "div"] next_elem
               then Some (get_text "" true next_elem) else None
           | None => None
           end) access_headers in
  let access_section :=
    or_find (find (λ n, named "div" n && attr_is "id" "route-getting-there" n) soup)
            (find (λ n, named "section" n && class_ "getting-there" n) soup) in
  let access_info :=
    match access_section with
    | Some s => access_info ++ [get_text " " true s]
    | None => access_info
    end in
  match access_info with
  | [] => "No access information available"
  | _ => PyStr.join " " access_info
  end.

(** The star icons of a widget that are marked filled or active *)
Definition filled_stars (rating_elem : node) : Z :=
  let stars :=
    find_all (λ n, named "i" n && class_ "fa-star" n) rating_elem
    ++ find_all (λ n, named "span" n && class_ "star" n) rating_elem in
  Z.of_nat
    (length
       (List.filter
          (λ s, bool_decide ("filled" ∈ get_class s)
                || bool_decide ("active" ∈ get_class s)) stars)).

(** The body of the loop of [extract_user_ratings] on one widget: the
    rating it appends, if any. *)
Definition rating_of (rating_elem : located) : option Rating :=
  let filled := filled_stars (element rating_elem) in
  if (0 <? filled)%Z then
    let rating_data := {| stars := Some filled; user := None; comment := None |} in
    let rating_data :=
      match head (ancestors rating_elem) with
      | Some parent =>
          let user_elem :=
            find (λ n, named "a" n && attr_search "href" Re.user_link n) parent in
          let rating_data :=
            match user_elem with
            | Some u =>
                {| stars := stars rating_data;
                   user := Some (get_text "" true u);
                   comment := comment rating_data |}
            | None => rating_data
            end in
          let comment_elem :=
            or_find (find (λ n, named "div" n && class_ "comment" n) parent)
                    (find (named "p") parent) in
          match comment_elem with
          | Some c =>
              {| stars := stars rating_data;
                 user := user rating_data;
                 comment := Some (get_text "" true c) |}
          | None => rating_data
          end
      | None => rating_data
      end in
    Some rating_data
  else None.

(** [rating_elements]: the candidate widgets, in scan order *)
Definition rating_elements (soup : node) : list located :=
  find_all_located (λ n, named "div" n && class_ "star-rating" n) soup
  ++ find_all_located (λ n, named "span" n && class_ "scoreStars" n) soup.

Definition extract_user_ratings (soup : node) : list Rating :=
  omap rating_of (rating_elements soup).

(** The loop over the [meta] tags: the first content in which the
    coordinate pattern is found sets both keys and ends the loop. *)
Fixpoint scan_coordinates (metas : list node) (location : Location) : result Location :=
  match metas with
  | [] => Ok location
  | meta :: rest =>
      let content := default "" (get "content" meta) in
      match Re.coord_search content with
      | Some (g1, g2) =>
          lat ← Float.of_string g1;
          let location :=
            {| latitude := Some lat; longitude := longitude location;
               area_hierarchy := area_hierarchy location;
               elevation := elevation location |} in
          lon ← Float.of_string g2;
          Ok {| latitude := latitude location; longitude := Some lon;
                area_hierarchy := area_hierarchy location;
                elevation := elevation location |}
      | None => scan_coordinates rest location
      end
  end.

(** The second part of [extract_location]: the breadcrumb links *)
Definition add_area_hierarchy (soup : node) (location : Location) : Location :=
  let breadcrumbs :=
    or_find (find (λ n, named "nav" n && class_ "breadcrumbs" n) soup)
            (find (λ n, named "div" n && class_ "breadcrumb" n) soup) in
  match breadcrumbs with
  | Some b =>
      let links := find_all (named "a") b in
      {| latitude := latitude location; longitude := longitude location;
         area_hierarchy :=
           Some (List.filter (λ t, negb (bool_decide (t = "")))
                   (get_text "" true <$> links));
         elevation := elevation location |}
  | None => location
  end.

(** The third part: the elevation *)
Definition add_elevation (soup : node) (location : Location) : Location :=
  let elevation_elem :=
    head (find_all_located (is_string_matching Re.elevation_word) soup) in
  match elevation_elem with
  | Some e =>
      let parent := default (element e) (head (ancestors e)) in
      let elevation_text := get_text "" false parent in
      match Re.elevation_search elevation_text with
      | Some g =>
          {| latitude := latitude location; longitude := longitude location;
             area_hierarchy := area_hierarchy location;
             elevation := Some g |}
      | None => location
      end
  | None => location
  end.

Definition extract_location (soup : node) : result Location :=
  let location :=
    {| latitude := None; longitude := None;
       area_hierarchy := None; elevation := None |} in
  location ← scan_coordinates (find_all (named "meta") soup) location;
  Ok (add_elevation soup (add_area_hierarchy soup location)).

(** The CSS selectors of [extract_images] *)
Inductive selector :=
| AttrContains (tag attr v : string)   (* tag[attr*="v"] *)
| BelowClass (c tag : string)          (* .c tag *)
| BelowId (i tag : string).            (* #i tag *)

Definition select (sel : selector) (soup : node) : list node :=
  match sel with
  | AttrContains tag a v => select_attr_contains tag a v soup
  | BelowClass c tag => select_below (css_class c) tag soup
  | BelowId i tag => select_below (css_id i) tag soup
  end.

Definition img_selectors : list selector :=
  [ AttrContains "img" "src" "route";
    AttrContains "img" "src" "photo";
    BelowClass "photo" "img";
    BelowClass "image-gallery" "img";
    BelowId "route-photos" "img" ].

(** The inner loop of [extract_images] over the images one selector
    matched; [images] is the list so far. *)
Fixpoint add_images (base : string) (img_elements : list node) (images : list string)
  : result (list string) :=
  match img_elements with
  | [] => Ok images
  | img :: rest =>
      let src := if truthy (get "src" img) then get "src" img else get "data-src" img in
      match src with
      | Some s =>
          if truthy src then
            full_url ← Urllib.urljoin base s;
            add_images base rest
              (if bool_decide (full_url ∈ images) then images
               else images ++ [full_url])
          else add_images base rest images
      | None => add_images base rest images
      end
  end.

(** The outer loop, over the selectors *)
Fixpoint select_images (base : string) (soup : node) (sels : list selector)
  (images : list string) : result (list string) :=
  match sels with
  | [] => Ok images
  | sel :: rest =>
      images ← add_images base (select sel soup) images;
      select_images base soup rest images
  end.

Definition extract_images (soup : node) (base : string) : result (list string) :=
  select_images base soup img_selectors [].

(** ** Fetching *)

(** The HTTP session and what it talks to: the number of requests made so
    far, and the document the site serves for a URL at each request,
    parsed; [None] is a transport error or an error status. *)
Record session := {
  requests : nat;
  network : nat → string → option node
}.

Definition get_page (u : string) (s : session) : option node * session :=
  (network s (requests s) u,
   {| requests := S (requests s); network := network s |}).

(** The body of the [try] block of [scrape_route] *)
Definition assemble (soup : node) (route_url : string) : result Route :=
  let basic_info := extract_route_basic_info soup in
  let '(description, soup) := extract_description soup in
  let access_info := extract_access_info soup in
  let user_ratings := extract_user_ratings soup in
  location ← extract_location soup;
  images ← extract_images soup base_url;
  Ok {| name := default "N/A" (basic_info !! "name");
        difficulty := default "N/A" (basic_info !! "difficulty");
        description := description;
        access_info := access_info;
        user_ratings := user_ratings;
        location := location;
        images := images;
        url := route_url |}.

Definition scrape_route (route_url : string) (s : session) : option Route * session :=
  let '(soup, s) := get_page route_url s in
  match soup with
  | None => (None, s)
  | Some soup =>
      match assemble soup route_url with
      | Ok route => (Some route, s)
      | Raise _ => (None, s)
      end
  end.



(** ** The link discoverer *)

(** [link['href']] of the anchors that have one, in document order *)
Definition anchor_hrefs (soup : node) : list string :=
  (λ link, default "" (get "href" link))
    <$> find_all (λ n, named "a" n && has_attr "href" n) soup.

(** The loop of [find_routes_from_area] over the anchors *)
Definition route_links (soup : node) : result (list string) :=
  for_each (Urllib.urljoin base_url)
    (List.filter (PyStr.contains "/route/") (anchor_hrefs soup)).

(** [l[:n]] *)
Definition slice_to (n : Z) {A} (l : list A) : list A :=
  if (0 <=? n)%Z then take (Z.to_nat n) l
  else take (length l - Z.to_nat (- n)) l.

(** [if max_routes: route_links = route_links[:max_routes]] *)
Definition truncate (max_routes : option Z) (l : list string) : list string :=
  match max_routes with
  | Some n => if (n =? 0)%Z then l else slice_to n l
  | None => l
  end.

(** [list(set(l))] lists each value of [l] once, in an order the language
    leaves open: a relation. *)
Definition list_of_set (l l' : list string) : Prop :=
  l' ≡ₚ elements (list_to_set l : gset string).

(** The runs of [find_routes_from_area]: the outcome and the session
    after it. *)
Inductive find_routes_from_area (area_url : string) (max_routes : option Z)
  (s : session) : result (list string) → session → Prop :=
| find_routes_no_page :
    (get_page area_url s).1 = None →
    find_routes_from_area area_url max_routes s (Ok []) (get_page area_url s).2
| find_routes_raise soup e :
    (get_page area_url s).1 = Some soup →
    route_links soup = Raise e →
    find_routes_from_area area_url max_routes s (Raise e) (get_page area_url s).2
| find_routes_links soup links l :
    (get_page area_url s).1 = Some soup →
    route_links soup = Ok links →
    list_of_set links l →
    find_routes_from_area area_url max_routes s
      (Ok (truncate max_routes l)) (get_page area_url s).2.

(** ** The CSV exporter *)

(** A value handed to the CSV writer *)
Inductive cell :=
| CStr (s : string)
| CNum (n : Float.number).

Definition fieldnames : list string :=
  ["name"; "difficulty"; "description"; "access_info"; "rating_count";
   "avg_rating"; "location_area"; "latitude"; "longitude"; "elevation";
   "image_count"; "url"].

(** [sum(r.get('stars', 0) for r in ratings)] *)
Definition sum_stars (ratings : list Rating) : Z :=
  foldr (λ r acc, (default 0 (stars r) + acc)%Z) 0%Z ratings.

(** [avg_rating] as the loop body computes it *)
Definition avg_rating (ratings : list Rating) : result Float.number :=
  match ratings with
  | [] => Ok (Float.PyInt 0)
  | _ => Float.PyFloat <$> Float.int_true_div (sum_stars ratings) (Z.of_nat (length ratings))
  end.

(** [s[:n] + '...' if len(s) > n else s] *)
Definition ellipsis (n : nat) (s : string) : string :=
  if (n <? String.length s)%nat then (PyStr.take n s ++ "...")%string else s.

Definition float_or_na (v : option spec_float) : cell :=
  match v with
  | Some x => CNum (Float.PyFloat x)
  | None => CStr "N/A"
  end.

(** [round(avg_rating, 1) if avg_rating > 0 else 'N/A'] *)
Definition avg_rating_cell (avg : Float.number) : cell :=
  if Float.gt0 avg then CNum (Float.round_1 avg) else CStr "N/A".

(** The [row] dict of one route *)
Definition csv_row (route : Route) : result (gmap string cell) :=
  let ratings := user_ratings route in
  avg ← avg_rating ratings;
  let location_area :=
    PyStr.join ", " (default [] (area_hierarchy (location route))) in
  Ok (list_to_map
        [ ("name", CStr (name route));
          ("difficulty", CStr (difficulty route));
          ("description", CStr (ellipsis 500 (description route)));
          ("access_info", CStr (ellipsis 300 (access_info route)));
          ("rating_count", CNum (Float.PyInt (Z.of_nat (length ratings))));
          ("avg_rating", avg_rating_cell avg);
          ("location_area", CStr location_area);
          ("latitude", float_or_na (latitude (location route)));
          ("longitude", float_or_na (longitude (location route)));
          ("elevation", from_option CStr (CStr "N/A") (elevation (location route)));
          ("image_count", CNum (Float.PyInt (Z.of_nat (length (images route)))));
          ("url", CStr (url route)) ]).

(** [writer.writerow(row)]: the values in the order of the field names *)
Definition writerow (row : gmap string cell) : list cell :=
  (λ f, default (CStr "") (row !! f)) <$> fieldnames.

(** [writer.writeheader()] *)
Definition header : list cell := CStr <$> fieldnames.

(** The loop over the routes: the lines written, and the exception that
    ended the loop if one did. *)
Fixpoint write_rows (routes : list Route) (lines : list (list cell))
  : list (list cell) * result unit :=
  match routes with
  | [] => (lines, Ok ())
  | route :: rest =>
      match csv_row route with
      | Ok row => write_rows rest (lines ++ [writerow row])
      | Raise e => (lines, Raise e)
      end
  end.

(** The files, by name: the lines of each. [save_to_csv] returns the
    files after the call and how the call ended. *)
Definition save_to_csv (routes : list Route) (filename : string)
  (fs : gmap string (list (list cell)))
  : gmap string (list (list cell)) * result unit :=
  match routes with
  | [] => (fs, Ok ())
  | _ =>
      let '(lines, r) := write_rows routes [header] in
      (<[filename := lines]> fs, r)
  end.

(* ================================================================== *)
(** * Statements of the specification, for comparison *)
(* ================================================================== *)

(** The grade criteria of [extract_route_basic_info], in the order they
    are tried. *)
Definition grade_criteria : list (node → bool) :=
  [ (λ n, named "span" n && class_ "rateYDS" n);
    (λ n, named "span" n && class_ "rateHueco" n);
    (λ n, named "span" n && class_ "rateVScale" n);
    (λ n, named "h2" n && class_ "inline-block mr-2" n) ].

(** The difficulty as the specification words it: the text of the first
    match, in the order of the criteria, whose text is not empty, and
    ["N/A"] if there is none. *)
Definition first_nonempty_grade (soup : node) : string :=
  default "N/A"
    (head (List.filter (λ t, negb (bool_decide (t = "")))
             (omap (λ crit, get_text "" true <$> find crit soup) grade_criteria))).

(** Order-preserving de-duplication: the first occurrence of each value
    stays. *)
Fixpoint dedup_first (l : list string) : list string :=
  match l with
  | [] => []
  | x :: l' => x :: List.filter (λ y, negb (bool_decide (y = x))) (dedup_first l')
  end.

(** The source an image tag contributes, if it has one. *)
Definition image_source (img : node) : option string :=
  let src := if truthy (get "src" img) then get "src" img else get "data-src" img in
  if truthy src then src else None.

(** The sources of the images the selectors match, selector by selector. *)
Definition image_sources (soup : node) : list string :=
  mjoin ((λ sel, omap image_source (select sel soup)) <$> img_selectors).

(** The groups of the coordinate pattern in the first [meta] content in
    which it is found. *)
Definition first_coordinates (soup : node) : option (string * string) :=
  head (omap (λ meta, Re.coord_search (default "" (get "content" meta)))
          (find_all (named "meta") soup)).


(** The schemes [urljoin] resolves a reference against: those of
    [uses_relative] that are not empty. *)
Definition resolving_schemes : list string := tail Urllib.uses_relative.

(** [if full_url not in images: images.append(full_url)] *)
Definition append_new (images : list string) (full_url : string) : list string :=
  if bool_decide (full_url ∈ images) then images else images ++ [full_url].


(** Two page elements that differ at most in what they contain: the same
    string, or tags with one name, one class list and the same
    attributes. *)
Definition same_tag (x y : node) : Prop :=
  match x, y with
  | Str k s, Str k' s' => k = k' ∧ s = s'
  | Elem nm cl at_ _, Elem nm' cl' at_' _ => nm = nm' ∧ cl = cl' ∧ at_ = at_'
  | _, _ => False
  end.

(** A criterion that reads the name and the attributes of a tag and not
    its contents. *)
Definition shallow (crit : node → bool) : Prop :=
  ∀ x y, same_tag x y → crit x = crit y.

(** The first page element that [crit] accepts among [cs] and their
    descendants, in document order. *)
Definition find_in (crit : node → bool) (cs : list node) : option node :=
  head (List.filter crit (flat_map (λ c, c :: descendants c) cs)).

(** [update_first] on the contents of a tag *)
Fixpoint update_children (crit : node → bool) (f : node → node) (cs : list node)
  : option (list node) :=
  match cs with
  | [] => None
  | c :: l =>
      if crit c then Some (f c :: l)
      else match update_first crit f c with
           | Some c' => Some (c' :: l)
           | None => cons c <$> update_children crit f l
           end
  end.

(** [decompose_all] on the contents of a tag *)
Fixpoint decompose_children (crit : node → bool) (cs : list node) : list node :=
  match cs with
  | [] => []
  | c :: l =>
      if crit c then decompose_children crit l
      else decompose_all crit c :: decompose_children crit l
  end.

(* ================================================================== *)
(** * Properties *)
(* ================================================================== *)

(** Membership in a list that is written out *)
Ltac in_list :=
  repeat first [ apply list_elem_of_here | apply list_elem_of_further ].

(** Case analysis on the scheme of a hypothesis [H : s ∈ resolving_schemes] *)
Ltac each_scheme H :=
  unfold resolving_schemes, Urllib.uses_relative in H; simpl in H;
  repeat (apply elem_of_cons in H as [->|H]; [try reflexivity|]);
  try (by apply elem_of_nil in H).

(** ** Searching *)

Lemma find_none crit soup :
  find crit soup = None ↔ ∀ d, d ∈ descendants soup → crit d = false.
Proof.
  unfold find, find_all. split.
  - intros H d Hd. destruct (crit d) eqn:E; [|done].
    assert (Hin : In d (List.filter crit (descendants soup))).
    { apply filter_In. split; [by apply list_elem_of_In|done]. }
    destruct (List.filter crit (descendants soup)); [destruct Hin|done].
  - intros H. destruct (List.filter crit (descendants soup)) as [|x l] eqn:E; [done|].
    assert (Hin : In x (List.filter crit (descendants soup))) by (rewrite E; left; done).
    apply filter_In in Hin as [Hin Hc]. apply list_elem_of_In in Hin.
    rewrite (H x Hin) in Hc. done.
Qed.

(** ** The ratings extractor *)

Lemma filled_stars_nonneg e : (0 ≤ filled_stars e)%Z.
Proof. unfold filled_stars. lia. Qed.

Lemma rating_of_stars w r :
  rating_of w = Some r →
  stars r = Some (filled_stars (element w)) ∧ (0 < filled_stars (element w))%Z.
Proof.
  unfold rating_of. destruct (0 <? filled_stars (element w))%Z eqn:E; [|done].
  apply Z.ltb_lt in E. intros H. injection H as <-. split; [|done].
  destruct (head (ancestors w)) as [parent|]; [|done].
  destruct (or_find _ _); destruct (find _ parent); done.
Qed.

Lemma rating_of_none w :
  rating_of w = None ↔ filled_stars (element w) = 0%Z.
Proof.
  unfold rating_of. pose proof (filled_stars_nonneg (element w)).
  destruct (0 <? filled_stars (element w))%Z eqn:E.
  - apply Z.ltb_lt in E. split; [done|lia].
  - apply Z.ltb_ge in E. split; [lia|done].
Qed.

(** C1. Every rating that [extract_user_ratings] emits has its [stars]
    key set, to the filled-star count of a candidate widget, and that
    count is greater than 0; a widget whose count is 0 yields no rating,
    so the ratings are exactly those of the widgets with a positive
    count, in scan order. *)
Theorem extract_user_ratings_stars_positive (soup : node) :
  Forall (λ r, ∃ n, stars r = Some n ∧ (0 < n)%Z) (extract_user_ratings soup)
  ∧ Forall (λ w, filled_stars (element w) = 0%Z → rating_of w = None)
      (rating_elements soup)
  ∧ length (extract_user_ratings soup)
    = length (List.filter (λ w, (0 <? filled_stars (element w))%Z)
                (rating_elements soup)).
Proof.
  unfold extract_user_ratings.
  split; [|split].
  - apply Forall_forall. intros r Hr.
    apply list_elem_of_omap in Hr as (w & _ & Hw).
    apply rating_of_stars in Hw as [Hs Hp]. eauto.
  - apply Forall_forall. intros w _ H0. by apply rating_of_none.
  - induction (rating_elements soup) as [|w l IH]; [done|].
    simpl. destruct (rating_of w) eqn:E.
    + apply rating_of_stars in E as [_ Hp]. apply Z.ltb_lt in Hp.
      rewrite Hp. simpl. f_equal. exact IH.
    + apply rating_of_none in E. rewrite E. simpl. exact IH.
Qed.

(** ** The description extractor *)

Lemma desc_section_none soup :
  desc_section soup = None ↔
  ∀ d, d ∈ descendants soup → is_fr_view d = false ∧ is_route_description d = false.
Proof.
  unfold desc_section, or_find. split.
  - intros H d Hd.
    destruct (find is_fr_view soup) eqn:E1; [done|].
    split; [by eapply find_none in E1|by eapply find_none in H].
  - intros H.
    assert (E1 : find is_fr_view soup = None).
    { apply find_none. intros d Hd. by apply H. }
    rewrite E1. apply find_none. intros d Hd. by apply H.
Qed.

Lemma decompose_all_no_contents crit d :
  contents d = [] → contents (decompose_all crit d) = [].
Proof. destruct d as [|nm cl at_ cs]; [done|]. simpl. by intros ->. Qed.

Lemma get_text_no_contents sep strip d : contents d = [] → get_text sep strip d = "".
Proof. destruct d as [|nm cl at_ cs]; [done|]. simpl. by intros ->. Qed.

(** C3, as stated, fails: in this document the content block is found
    (the [div] of class [fr-view]) and is empty, and the description is
    the empty string, which is not the literal. *)
Lemma extract_description_empty_block :
  let block := Elem "div" (Some ["fr-view"]) ∅ [] in
  let soup := soup_of [block] in
  desc_section soup = Some block
  ∧ contents block = []
  ∧ (extract_description soup).1 = ""
  ∧ bool_decide ((extract_description soup).1 = "No description available") = false.
Proof. vm_compute. done. Qed.

(** C3, amended. When neither selector matches any tag of the document
    (no [div] of class [fr-view], no [div] whose id is
    [route-description]), [extract_description] returns the literal "No
    description available" and leaves the document as it was. When a
    block is found, the description is the text of the block without its
    scripts and styles, and that is the empty string when the block is
    empty. *)
Theorem extract_description_fallback (soup : node) :
  ((∀ d, d ∈ descendants soup → is_fr_view d = false ∧ is_route_description d = false) →
   extract_description soup = ("No description available", soup))
  ∧ (∀ d, desc_section soup = Some d →
       (extract_description soup).1
       = get_text " " true (decompose_all script_or_style d)
       ∧ (contents d = [] → (extract_description soup).1 = "")).
Proof.
  split.
  - intros H. apply desc_section_none in H. unfold extract_description. by rewrite H.
  - intros d Hd. unfold extract_description. rewrite Hd. simpl. split; [done|].
    intros Hc. apply get_text_no_contents. by apply decompose_all_no_contents.
Qed.

(** C3, amended, on a page with no content block and on a page with one. *)
Lemma extract_description_fallback_witness :
  extract_description (soup_of [Elem "p" None ∅ [Str NavigableString "Closed in winter"]])
  = ("No description available",
     soup_of [Elem "p" None ∅ [Str NavigableString "Closed in winter"]])
  ∧ (extract_description
       (soup_of [Elem "div" (Some ["fr-view"]) ∅
                   [Str NavigableString " Three pitches "]])).1
    = "Three pitches".
Proof.
  split.
  - apply (proj1 (extract_description_fallback _)).
    intros d Hd. vm_compute in Hd.
    repeat (apply elem_of_cons in Hd as [->|Hd]; [by vm_compute|]).
    by apply elem_of_nil in Hd.
  - etrans.
    + refine (proj1 (proj2 (extract_description_fallback _)
                (Elem "div" (Some ["fr-view"]) ∅
                   [Str NavigableString " Three pitches "]) _)).
      reflexivity.
    + reflexivity.
Defined.

(** ** The basic-info extractor *)

(** C7, as stated, fails: here the first grade marker (class [rateYDS])
    is found and its text is empty; the second (class [rateHueco]) holds
    "V5". The difficulty is the empty string, not the text of the first
    match that is not empty. *)
Lemma difficulty_empty_first_match :
  let soup :=
    soup_of [ Elem "span" (Some ["rateYDS"]) ∅ [];
              Elem "span" (Some ["rateHueco"]) ∅ [Str NavigableString "V5"] ] in
  extract_route_basic_info soup !! "difficulty" = Some ""
  ∧ first_nonempty_grade soup = "V5".
Proof. vm_compute. done. Qed.

(** C7, amended. The difficulty is the stripped text of the first grade
    marker found, empty or not, the criteria being tried in the order
    [rateYDS], [rateHueco], [rateVScale], then the [h2] marker; it is
    "N/A" when no tag of the document meets any of them. When no marker
    found has an empty text, this is the text of the first match that is
    not empty. *)
Theorem difficulty_first_match (soup : node) :
  (∀ i crit e,
     grade_criteria !! i = Some crit →
     find crit soup = Some e →
     (∀ j c, (j < i)%nat → grade_criteria !! j = Some c → find c soup = None) →
     extract_route_basic_info soup !! "difficulty" = Some (get_text "" true e))
  ∧ ((∀ crit d, crit ∈ grade_criteria → d ∈ descendants soup → crit d = false) →
     extract_route_basic_info soup !! "difficulty" = Some "N/A")
  ∧ ((∀ crit e, crit ∈ grade_criteria → find crit soup = Some e →
        get_text "" true e ≠ "") →
     extract_route_basic_info soup !! "difficulty" = Some (first_nonempty_grade soup)).
Proof.
  unfold extract_route_basic_info. rewrite lookup_insert_eq.
  split; [|split].
  - intros i crit e Hi He Hlt.
    destruct i as [|[|[|[|i]]]]; simpl in Hi; [| | | |done]; injection Hi as <-.
    + by rewrite He.
    + rewrite (Hlt 0%nat _ ltac:(lia) eq_refl). simpl. by rewrite He.
    + rewrite (Hlt 0%nat _ ltac:(lia) eq_refl), (Hlt 1%nat _ ltac:(lia) eq_refl).
      simpl. by rewrite He.
    + rewrite (Hlt 0%nat _ ltac:(lia) eq_refl), (Hlt 1%nat _ ltac:(lia) eq_refl),
        (Hlt 2%nat _ ltac:(lia) eq_refl). simpl. by rewrite He.
  - intros H.
    assert (Hn : ∀ crit, crit ∈ grade_criteria → find crit soup = None).
    { intros crit Hc. apply find_none. intros d Hd. by apply H. }
    rewrite (Hn (λ n, named "span" n && class_ "rateYDS" n) ltac:(in_list)).
    rewrite (Hn (λ n, named "span" n && class_ "rateHueco" n)
               ltac:(in_list)).
    rewrite (Hn (λ n, named "span" n && class_ "rateVScale" n)
               ltac:(in_list)).
    rewrite (Hn (λ n, named "h2" n && class_ "inline-block mr-2" n)
               ltac:(in_list)).
    done.
  - intros H. unfold first_nonempty_grade, grade_criteria. simpl.
    pose proof (H (λ n, named "span" n && class_ "rateYDS" n)) as H1.
    pose proof (H (λ n, named "span" n && class_ "rateHueco" n)) as H2.
    pose proof (H (λ n, named "span" n && class_ "rateVScale" n)) as H3.
    pose proof (H (λ n, named "h2" n && class_ "inline-block mr-2" n)) as H4.
    destruct (find (λ n, named "span" n && class_ "rateYDS" n) soup) as [e1|];
      simpl.
    { specialize (H1 e1 ltac:(in_list) eq_refl).
      rewrite bool_decide_eq_false_2 by done. done. }
    destruct (find (λ n, named "span" n && class_ "rateHueco" n) soup) as [e2|];
      simpl.
    { specialize (H2 e2 ltac:(in_list) eq_refl).
      rewrite bool_decide_eq_false_2 by done. done. }
    destruct (find (λ n, named "span" n && class_ "rateVScale" n) soup) as [e3|];
      simpl.
    { specialize (H3 e3 ltac:(in_list) eq_refl).
      rewrite bool_decide_eq_false_2 by done. done. }
    destruct (find (λ n, named "h2" n && class_ "inline-block mr-2" n) soup) as [e4|];
      simpl; [|done].
    specialize (H4 e4 ltac:(in_list) eq_refl).
    rewrite bool_decide_eq_false_2 by done. done.
Qed.

(** ** Strings *)

Lemma append_empty_r (s : string) : (s ++ "")%string = s.
Proof.
  induction s as [|c s IH]; [done|].
  change (String c (s ++ "")%string = String c s). by f_equal.
Qed.

Lemma span_spec p s :
  s = ((PyStr.span p s).1 ++ (PyStr.span p s).2)%string
  ∧ PyStr.forallb p (PyStr.span p s).1 = true
  ∧ PyStr.starts_with p (PyStr.span p s).2 = false.
Proof.
  induction s as [|c s IH]; simpl; [done|].
  destruct (p c) eqn:E.
  - destruct (PyStr.span p s) as [a b]; simpl in *. destruct IH as (-> & Ha & Hb).
    rewrite E. done.
  - simpl. by rewrite E.
Qed.

Lemma span_app p a b :
  PyStr.forallb p a = true → PyStr.starts_with p b = false →
  PyStr.span p (a ++ b)%string = (a, b).
Proof.
  intros Ha Hb. induction a as [|c a IH]; simpl in *.
  - destruct b as [|c b]; simpl in *; [done|]. by rewrite Hb.
  - apply andb_prop in Ha as [Hc Ha]. rewrite Hc, (IH Ha). done.
Qed.

Lemma optional_char_spec c s :
  ((Re.optional_char c s).1 = String c "" ∧ s = String c (Re.optional_char c s).2)
  ∨ ((Re.optional_char c s).1 = "" ∧ (Re.optional_char c s).2 = s
     ∧ PyStr.starts_with (λ d, Ascii.eqb d c) s = false).
Proof.
  destruct s as [|d s]; simpl; [by right|].
  destruct (Ascii.eqb_spec d c) as [->|Hne]; simpl; [by left|by right].
Qed.

Lemma optional_char_hit c s : Re.optional_char c (String c s) = (String c "", s).
Proof. simpl. by rewrite Ascii.eqb_refl. Qed.

Lemma optional_char_miss c s :
  PyStr.starts_with (λ d, Ascii.eqb d c) s = false → Re.optional_char c s = ("", s).
Proof. destruct s as [|d s]; simpl; [done|]. by intros ->. Qed.

(** What [number_at] takes is a text that [number_at] takes whole. *)
Lemma number_at_reparse s sg d1 dot d2 r :
  Re.number_at s = Some (sg, d1, dot, d2, r) →
  Re.number_at (sg ++ d1 ++ dot ++ d2)%string = Some (sg, d1, dot, d2, "").
Proof.
  unfold Re.number_at.
  pose proof (optional_char_spec "-" s) as Hsg.
  destruct (Re.optional_char "-" s) as [sg0 s1]; simpl in Hsg.
  pose proof (span_spec PyStr.is_digit s1) as (_ & Hd1 & Hs2).
  destruct (PyStr.span PyStr.is_digit s1) as [d10 s2]; simpl in Hd1, Hs2.
  case_bool_decide as Hne; [done|].
  pose proof (optional_char_spec "." s2) as Hdot.
  destruct (Re.optional_char "." s2) as [dot0 s3]; simpl in Hdot.
  pose proof (span_spec PyStr.is_digit s3) as (Hs3 & Hd2 & _).
  destruct (PyStr.span PyStr.is_digit s3) as [d20 s4] eqn:Es3; simpl in Hs3, Hd2.
  intros [= <- <- <- <- <-].
  assert (Htail : PyStr.starts_with PyStr.is_digit (dot0 ++ d20)%string = false
                  ∧ Re.optional_char "." (dot0 ++ d20)%string = (dot0, d20)).
  { destruct Hdot as [[-> ->]|(-> & -> & Hnd)].
    - split; [done|]. apply optional_char_hit.
    - assert (d20 = "") as ->.
      { destruct s2 as [|c s2]; simpl in *; [by injection Es3 as <-|].
        rewrite Hs2 in Es3. by injection Es3 as <-. }
      split; [done|]. done. }
  destruct Htail as [Ht1 Ht2].
  assert (Hhead : Re.optional_char "-" (sg0 ++ d10 ++ dot0 ++ d20)%string
                  = (sg0, (d10 ++ dot0 ++ d20)%string)).
  { destruct Hsg as [[-> _]|(-> & _ & _)].
    - apply optional_char_hit.
    - simpl. apply optional_char_miss.
      destruct d10 as [|c d10]; [done|]. simpl in *.
      apply andb_prop in Hd1 as [Hc _].
      destruct (Ascii.eqb_spec c "-") as [->|]; [done|done]. }
  rewrite Hhead, (span_app _ _ _ Hd1 Ht1).
  rewrite bool_decide_eq_false_2 by done.
  rewrite Ht2. rewrite <- (append_empty_r d20) at 1.
  rewrite (span_app _ d20 "" Hd2 eq_refl). done.
Qed.

Lemma of_string_number_at s sg d1 dot d2 r :
  Re.number_at s = Some (sg, d1, dot, d2, r) →
  ∃ x, Float.of_string (sg ++ d1 ++ dot ++ d2)%string = Ok x.
Proof.
  intros H. unfold Float.of_string. rewrite (number_at_reparse _ _ _ _ _ _ H). eauto.
Qed.

Lemma of_string_coord_at s g1 g2 :
  Re.coord_at s = Some (g1, g2) →
  ∃ x1 x2, Float.of_string g1 = Ok x1 ∧ Float.of_string g2 = Ok x2.
Proof.
  unfold Re.coord_at.
  destruct (Re.number_at s) as [[[[[sg d1] dot] d2] r]|] eqn:E1; [|done].
  destruct r as [|c r]; [done|].
  destruct (Ascii.eqb_spec c ",") as [->|Hne].
  - destruct (Re.number_at (PyStr.span PyStr.is_space r).2)
      as [[[[[sg' d1'] dot'] d2'] r']|] eqn:E2; [|done].
    intros [= <- <-].
    destruct (of_string_number_at _ _ _ _ _ _ E1) as [x1 H1].
    destruct (of_string_number_at _ _ _ _ _ _ E2) as [x2 H2]. eauto.
  - destruct c as [[] [] [] [] [] [] [] []]; try done.
Qed.

(** [float] never raises on a group of the coordinate pattern. *)
Lemma of_string_coord_search s g1 g2 :
  Re.coord_search s = Some (g1, g2) →
  ∃ x1 x2, Float.of_string g1 = Ok x1 ∧ Float.of_string g2 = Ok x2.
Proof.
  induction s as [|c s IH]; simpl.
  - done.
  - destruct (Re.coord_at (String c s)) as [[a b]|] eqn:E; [|done].
    intros [= <- <-]. by apply (of_string_coord_at (String c s)).
Qed.

(** ** The location extractor *)

Lemma scan_coordinates_spec metas loc :
  ∃ loc',
    scan_coordinates metas loc = Ok loc'
    ∧ area_hierarchy loc' = area_hierarchy loc
    ∧ elevation loc' = elevation loc
    ∧ match head (omap (λ meta, Re.coord_search (default "" (get "content" meta)))
                    metas) with
      | Some (g1, g2) =>
          ∃ x1 x2, Float.of_string g1 = Ok x1 ∧ Float.of_string g2 = Ok x2
                   ∧ latitude loc' = Some x1 ∧ longitude loc' = Some x2
      | None => loc' = loc
      end.
Proof.
  induction metas as [|meta rest IH]; simpl.
  - by exists loc.
  - destruct (Re.coord_search (default "" (get "content" meta))) as [[g1 g2]|] eqn:E;
      simpl.
    + destruct (of_string_coord_search _ _ _ E) as (x1 & x2 & H1 & H2).
      rewrite H1. simpl. rewrite H2. simpl.
      eexists. split; [reflexivity|]. simpl. eauto 10.
    + exact IH.
Qed.

Lemma add_area_hierarchy_latitude soup l :
  latitude (add_area_hierarchy soup l) = latitude l.
Proof. unfold add_area_hierarchy. by destruct (or_find _ _). Qed.

Lemma add_area_hierarchy_longitude soup l :
  longitude (add_area_hierarchy soup l) = longitude l.
Proof. unfold add_area_hierarchy. by destruct (or_find _ _). Qed.

Lemma add_elevation_latitude soup l : latitude (add_elevation soup l) = latitude l.
Proof. unfold add_elevation. repeat case_match; done. Qed.

Lemma add_elevation_longitude soup l : longitude (add_elevation soup l) = longitude l.
Proof. unfold add_elevation. repeat case_match; done. Qed.

(** C8. [extract_location] returns a location (it never raises) whose
    [latitude] and [longitude] are both set or both absent: when the
    coordinate pattern is found in the content of some [meta] tag, both
    are the [float]s of the two groups of the first such content in
    document order (the scan stops there); when it is found in none, both
    are absent. *)
Theorem extract_location_coordinates (soup : node) :
  ∃ loc,
    extract_location soup = Ok loc
    ∧ (is_Some (latitude loc) ↔ is_Some (longitude loc))
    ∧ match first_coordinates soup with
      | Some (g1, g2) =>
          ∃ x1 x2, Float.of_string g1 = Ok x1 ∧ Float.of_string g2 = Ok x2
                   ∧ latitude loc = Some x1 ∧ longitude loc = Some x2
      | None => latitude loc = None ∧ longitude loc = None
      end.
Proof.
  unfold extract_location, first_coordinates.
  destruct (scan_coordinates_spec (find_all (named "meta") soup)
              {| latitude := None; longitude := None;
                 area_hierarchy := None; elevation := None |})
    as (loc' & Hscan & _ & _ & Hc).
  rewrite Hscan. simpl.
  eexists. split; [reflexivity|].
  rewrite add_elevation_latitude, add_elevation_longitude.
  rewrite add_area_hierarchy_latitude, add_area_hierarchy_longitude.
  destruct (head _) as [[g1 g2]|].
  - destruct Hc as (x1 & x2 & H1 & H2 & Hla & Hlo). rewrite Hla, Hlo.
    split; [split; eauto|]. eauto 10.
  - subst loc'. simpl. split; [|done]. split; intros [? [=]].
Qed.

(** ** The route assembler and the batch driver *)









(** An extraction that raises: the image source has an authority with an
    opening bracket and no closing one, [urljoin] raises [ValueError],
    and [scrape_route] returns no route for a page that was fetched. *)
Example scrape_route_extraction_raises :
  let page :=
    soup_of [Elem "div" (Some ["photo"]) ∅
               [Elem "img" None {[ "src" := "//[cdn/a.png" ]} []]] in
  let s := {| requests := 0; network := λ _ _, Some page |} in
  extract_images page base_url = Raise ValueError
  ∧ (scrape_route "https://www.mountainproject.com/route/1/a" s).1 = None.
Proof. vm_compute. done. Qed.

(** ** [urljoin] returns absolute URLs *)

Lemma append_cons c (s t : string) : (String c s ++ t)%string = String c (s ++ t)%string.
Proof. reflexivity. Qed.

Lemma append_assoc (a b c : string) : ((a ++ b) ++ c)%string = (a ++ b ++ c)%string.
Proof.
  induction a as [|x a IH]; [done|].
  rewrite !append_cons. by f_equal.
Qed.

Lemma split_scheme_nonempty u s rest :
  Urllib.split_scheme u = Some (s, rest) → s ≠ "".
Proof.
  unfold Urllib.split_scheme.
  destruct (PyStr.find_char ":" u) as [[|i]|]; [done| |done].
  destruct u as [|c u]; [done|].
  destruct (_ && _); [|done]. intros [= <- _]. done.
Qed.

Lemma urlsplit_scheme u d r :
  Urllib.urlsplit u d = Ok r →
  Urllib.scheme r = match Urllib.split_scheme (Urllib.clean_url u) with
                    | Some (s, _) => s
                    | None => Urllib.clean_scheme d
                    end.
Proof.
  unfold Urllib.urlsplit.
  destruct (Urllib.split_scheme (Urllib.clean_url u)) as [[s rest]|].
  - destruct (String.prefix "//" rest).
    + destruct (PyStr.span _ _) as [nl rest']. destruct (_ || _); [done|]. simpl.
      repeat case_match; by intros [= <-].
    + simpl. repeat case_match; by intros [= <-].
  - destruct (String.prefix "//" (Urllib.clean_url u)).
    + destruct (PyStr.span _ _) as [nl rest']. destruct (_ || _); [done|]. simpl.
      repeat case_match; by intros [= <-].
    + simpl. repeat case_match; by intros [= <-].
Qed.

Lemma urlparse_scheme u d r params :
  Urllib.urlparse u d = Ok (r, params) →
  Urllib.scheme r = match Urllib.split_scheme (Urllib.clean_url u) with
                    | Some (s, _) => s
                    | None => Urllib.clean_scheme d
                    end.
Proof.
  unfold Urllib.urlparse. destruct (Urllib.urlsplit u d) as [r0|] eqn:E; [|done].
  apply urlsplit_scheme in E. simpl.
  destruct (_ && _).
  - destruct (Urllib.splitparams _). by intros [= <- _].
  - by intros [= <- _].
Qed.

Lemma resolving_scheme_nonempty s : s ∈ resolving_schemes → s ≠ "".
Proof. intros H. each_scheme H; done. Qed.

Lemma resolving_scheme_relative s : s ∈ resolving_schemes → s ∈ Urllib.uses_relative.
Proof. intros H. by apply list_elem_of_further. Qed.

Lemma clean_scheme_resolving s : s ∈ resolving_schemes → Urllib.clean_scheme s = s.
Proof. intros H. each_scheme H. Qed.

Lemma url_scheme_prefixed (s x : string) :
  s ∈ resolving_schemes → Urllib.url_scheme (s ++ ":" ++ x)%string = s.
Proof. intros H. each_scheme H. Qed.

Lemma urlunsplit_prefixed r :
  Urllib.scheme r ≠ "" →
  ∃ x, Urllib.urlunsplit r = (Urllib.scheme r ++ ":" ++ x)%string.
Proof.
  intros Hs. unfold Urllib.urlunsplit.
  rewrite (bool_decide_eq_false_2 _ Hs).
  cbv zeta. repeat case_match; rewrite ?append_assoc; eauto.
Qed.

Lemma urlunparse_absolute r params :
  Urllib.scheme r ∈ resolving_schemes →
  Urllib.is_absolute (Urllib.urlunparse r params) = true.
Proof.
  intros Hs. unfold Urllib.urlunparse, Urllib.is_absolute.
  apply negb_true_iff, bool_decide_eq_false_2.
  pose proof (resolving_scheme_nonempty _ Hs) as Hne.
  destruct (bool_decide (params = "")).
  - destruct (urlunsplit_prefixed r Hne) as [x ->].
    by rewrite url_scheme_prefixed.
  - set (r' := {| Urllib.scheme := _ |}).
    destruct (urlunsplit_prefixed r' Hne) as [x ->]. simpl.
    by rewrite url_scheme_prefixed.
Qed.

(** Against a base whose scheme is one that [urljoin] resolves against,
    whatever [urljoin] returns names its scheme. *)
Lemma urljoin_absolute base u r :
  Urllib.url_scheme base ∈ resolving_schemes →
  Urllib.urljoin base u = Ok r →
  Urllib.is_absolute r = true.
Proof.
  intros Hb. pose proof (resolving_scheme_nonempty _ Hb) as Hbne.
  unfold Urllib.urljoin.
  case_bool_decide as Hbase.
  { subst base. done. }
  case_bool_decide as Hu.
  { intros [= <-]. unfold Urllib.is_absolute.
    by apply negb_true_iff, bool_decide_eq_false_2. }
  destruct (Urllib.urlparse base "") as [[b bparams]|] eqn:Eb; [|done]. simpl.
  destruct (Urllib.urlparse u (Urllib.scheme b)) as [[p params]|] eqn:Eu; [|done]. simpl.
  assert (Hsb : Urllib.scheme b = Urllib.url_scheme base).
  { rewrite (urlparse_scheme _ _ _ _ Eb). unfold Urllib.url_scheme.
    destruct (Urllib.split_scheme (Urllib.clean_url base)) as [[s0 rest0]|] eqn:E0; [done|].
    unfold Urllib.url_scheme in Hbne. by rewrite E0 in Hbne. }
  pose proof (urlparse_scheme _ _ _ _ Eu) as Hsp.
  destruct (negb (bool_decide (Urllib.scheme p = Urllib.scheme b))
            || negb (bool_decide (Urllib.scheme p ∈ Urllib.uses_relative))) eqn:Ebr.
  - intros [= <-]. unfold Urllib.is_absolute, Urllib.url_scheme.
    apply negb_true_iff, bool_decide_eq_false_2.
    destruct (Urllib.split_scheme (Urllib.clean_url u)) as [[s1 rest1]|] eqn:E1.
    + by eapply split_scheme_nonempty.
    + rewrite Hsb, (clean_scheme_resolving _ Hb) in Hsp.
      apply orb_true_iff in Ebr as [Hx|Hx]; apply negb_true_iff in Hx;
        apply bool_decide_eq_false_1 in Hx; exfalso; apply Hx.
      * by rewrite Hsp, Hsb.
      * rewrite Hsp. by apply resolving_scheme_relative.
  - apply orb_false_iff in Ebr as [Hx _]. apply negb_false_iff in Hx.
    apply bool_decide_eq_true_1 in Hx.
    assert (Hp : Urllib.scheme p ∈ resolving_schemes) by (by rewrite Hx, Hsb).
    repeat case_match; intros [= <-]; by apply urlunparse_absolute.
Qed.

(** ** The images extractor *)

Lemma for_each_app {A B} (f : A → result B) l1 l2 :
  for_each f (l1 ++ l2)
  = (a ← for_each f l1; b ← for_each f l2; Ok (a ++ b)).
Proof.
  induction l1 as [|x l1 IH]; simpl.
  - by destruct (for_each f l2).
  - destruct (f x) as [y|e]; simpl; [|done]. rewrite IH.
    destruct (for_each f l1) as [a|e]; simpl; [|done].
    by destruct (for_each f l2).
Qed.

Lemma for_each_ok {A B} (f : A → result B) l bs :
  for_each f l = Ok bs → Forall2 (λ a b, f a = Ok b) l bs.
Proof.
  revert bs. induction l as [|x l IH]; simpl; intros bs.
  - intros [= <-]. constructor.
  - destruct (f x) as [y|e] eqn:E; simpl; [|done].
    destruct (for_each f l) as [ys|e]; simpl; [|done].
    intros [= <-]. constructor; [done|]. by apply IH.
Qed.

Lemma add_images_source base img rest acc :
  add_images base (img :: rest) acc
  = match image_source img with
    | Some s => full_url ← Urllib.urljoin base s;
                add_images base rest (append_new acc full_url)
    | None => add_images base rest acc
    end.
Proof.
  simpl. unfold image_source.
  destruct (truthy (get "src" img)) eqn:E1.
  - rewrite E1. destruct (get "src" img); done.
  - destruct (get "data-src" img) as [s|] eqn:E2; [|done].
    simpl. destruct (negb (bool_decide (s = ""))); done.
Qed.

Lemma add_images_spec base imgs acc :
  add_images base imgs acc
  = (urls ← for_each (Urllib.urljoin base) (omap image_source imgs);
     Ok (foldl append_new acc urls)).
Proof.
  revert acc. induction imgs as [|img rest IH]; intros acc; [done|].
  rewrite add_images_source. simpl. destruct (image_source img) as [s|]; [|apply IH].
  simpl. destruct (Urllib.urljoin base s) as [u|e]; simpl; [|done].
  rewrite IH. by destruct (for_each _ _).
Qed.

Lemma select_images_spec base soup sels acc :
  select_images base soup sels acc
  = (urls ← for_each (Urllib.urljoin base)
               (mjoin ((λ sel, omap image_source (select sel soup)) <$> sels));
     Ok (foldl append_new acc urls)).
Proof.
  revert acc. induction sels as [|sel rest IH]; intros acc; [done|].
  simpl. rewrite add_images_spec, for_each_app.
  destruct (for_each _ (omap image_source (select sel soup))) as [a|e]; simpl; [|done].
  rewrite IH. destruct (for_each _ _) as [b|e]; simpl; [|done].
  by rewrite foldl_app.
Qed.

Lemma filter_filter_keep (p q : string → bool) l :
  (∀ x, p x = true → q x = true) →
  List.filter p (List.filter q l) = List.filter p l.
Proof.
  intros H. induction l as [|x l IH]; simpl; [done|].
  destruct (q x) eqn:Eq; simpl.
  - destruct (p x); by rewrite IH.
  - destruct (p x) eqn:Ep; [|done]. apply H in Ep. congruence.
Qed.

(** Appending what is new, one value after the other, keeps the first
    occurrence of each value. *)
Lemma foldl_append_new acc urls :
  foldl append_new acc urls
  = acc ++ List.filter (λ y, negb (bool_decide (y ∈ acc))) (dedup_first urls).
Proof.
  revert acc. induction urls as [|x l IH]; intros acc; simpl.
  - by rewrite app_nil_r.
  - rewrite IH. unfold append_new. case_bool_decide as Hx; simpl.
    + f_equal. rewrite filter_filter_keep; [done|].
      intros y Hy. apply negb_true_iff, bool_decide_eq_false_2.
      apply negb_true_iff, bool_decide_eq_false_1 in Hy. by intros ->.
    + rewrite <- app_assoc. simpl. do 2 f_equal.
      clear IH. induction (dedup_first l) as [|y k IHk]; simpl; [done|].
      destruct (decide (y = x)) as [->|Hne].
      * rewrite (bool_decide_eq_true_2 (x ∈ acc ++ [x]))
          by (apply elem_of_app; right; apply list_elem_of_here).
        rewrite (bool_decide_eq_true_2 (x = x)) by done. simpl. exact IHk.
      * rewrite (bool_decide_eq_false_2 (y = x)) by done. simpl.
        destruct (decide (y ∈ acc)) as [Hin|Hnin].
        -- rewrite (bool_decide_eq_true_2 (y ∈ acc ++ [x]))
             by (apply elem_of_app; by left).
           rewrite (bool_decide_eq_true_2 (y ∈ acc)) by done. simpl. exact IHk.
        -- rewrite (bool_decide_eq_false_2 (y ∈ acc ++ [x]))
             by (intros [?|?%list_elem_of_singleton]%elem_of_app; done).
           rewrite (bool_decide_eq_false_2 (y ∈ acc)) by done. simpl.
           by rewrite IHk.
Qed.

Lemma filter_all (p : string → bool) l :
  (∀ y, p y = true) → List.filter p l = l.
Proof.
  intros H. induction l as [|y l IH]; simpl; [done|]. by rewrite H, IH.
Qed.

Lemma filter_not_in_nil (l : list string) :
  List.filter (λ y, negb (bool_decide (y ∈ @nil string))) l = l.
Proof.
  apply filter_all. intros y. apply negb_true_iff, bool_decide_eq_false_2.
  by intros ?%elem_of_nil.
Qed.




(** The first occurrences keep their order: [dedup_first] of a list that
    already has no repetition is the list itself. *)
Lemma dedup_first_NoDup l : NoDup l → dedup_first l = l.
Proof.
  induction 1 as [|x l Hx Hl IH]; simpl; [done|]. rewrite IH. f_equal.
  clear IH Hl. induction l as [|y l IH]; simpl; [done|].
  apply not_elem_of_cons in Hx as [Hne Hx].
  rewrite (bool_decide_eq_false_2 (y = x)) by done. simpl. by rewrite IH.
Qed.



(** ** The link discoverer *)

Lemma base_url_resolving : Urllib.url_scheme base_url ∈ resolving_schemes.
Proof. vm_compute. in_list. Qed.

Lemma list_of_set_spec links l :
  list_of_set links l → NoDup l ∧ ∀ u, u ∈ l ↔ u ∈ links.
Proof.
  unfold list_of_set. intros Hp. split.
  - rewrite Hp. apply NoDup_elements.
  - intros u. rewrite Hp, elem_of_elements. apply elem_of_list_to_set.
Qed.

Lemma list_of_set_exists links : ∃ l, list_of_set links l.
Proof. exists (elements (list_to_set links : gset string)). by unfold list_of_set. Qed.

Lemma for_each_elem_of {A B} (f : A → result B) l bs b :
  for_each f l = Ok bs → (b ∈ bs ↔ ∃ a, a ∈ l ∧ f a = Ok b).
Proof.
  intros H%for_each_ok. induction H as [|a b' l bs Hab H IH].
  - split; [by intros ?%elem_of_nil|]. by intros (a & ?%elem_of_nil & _).
  - rewrite elem_of_cons, IH. split.
    + intros [->|(a' & Ha' & Hf)].
      * exists a. split; [apply list_elem_of_here|done].
      * exists a'. split; [by apply list_elem_of_further|done].
    + intros (a' & [->|Ha']%elem_of_cons & Hf).
      * left. congruence.
      * right. eauto.
Qed.

Lemma find_routes_ok_inv area_url max_routes s soup out s' :
  (get_page area_url s).1 = Some soup →
  find_routes_from_area area_url max_routes s (Ok out) s' →
  ∃ links l, route_links soup = Ok links ∧ list_of_set links l
             ∧ out = truncate max_routes l.
Proof.
  intros Hp Hrun. inversion Hrun as [Hn| |soup' links l Hp' Hl Hs]; subst.
  - rewrite Hp in Hn. done.
  - rewrite Hp in Hp'. injection Hp' as <-. eauto.
Qed.

Lemma NoDup_one (x : string) l : NoDup l → (∀ u, u ∈ l ↔ u = x) → l = [x].
Proof.
  intros Hnd H. destruct l as [|y l].
  - exfalso. eapply elem_of_nil, H. reflexivity.
  - assert (y = x) as -> by (apply H, list_elem_of_here).
    f_equal. destruct l as [|z l]; [done|].
    assert (z = x) as -> by (apply H, list_elem_of_further, list_elem_of_here).
    apply NoDup_cons in Hnd as [Hnd _]. exfalso. apply Hnd, list_elem_of_here.
Qed.

(** The run on a page whose anchors have the [href] values [/route/1/a],
    [/route/1/a] and [/area/2/b]. *)
Lemma find_routes_example_page area_url s soup :
  (get_page area_url s).1 = Some soup →
  anchor_hrefs soup = ["/route/1/a"; "/route/1/a"; "/area/2/b"] →
  route_links soup = Ok ["https://www.mountainproject.com/route/1/a";
                         "https://www.mountainproject.com/route/1/a"]
  ∧ ∀ l, list_of_set ["https://www.mountainproject.com/route/1/a";
                      "https://www.mountainproject.com/route/1/a"] l
         ↔ l = ["https://www.mountainproject.com/route/1/a"].
Proof.
  intros Hp Hh. split.
  - unfold route_links. rewrite Hh. vm_compute. reflexivity.
  - intros l. split.
    + intros Hs. destruct (list_of_set_spec _ _ Hs) as [Hnd Hin].
      apply NoDup_one; [done|]. intros u. rewrite Hin.
      rewrite !elem_of_cons, elem_of_nil. tauto.
    + intros ->. unfold list_of_set. vm_compute. reflexivity.
Qed.

(** C6. With no maximum, a run of [find_routes_from_area] on an area page
    that returns, returns a list without duplicates whose entries are
    exactly the URLs that [urljoin] makes, against the base URL of the
    site, of the [href] values containing [/route/] of the anchors of the
    page; every entry is absolute. Such a run exists whenever every such
    [href] can be resolved. When the [href] values of the anchors are
    [/route/1/a], [/route/1/a] and [/area/2/b], the result is the single
    URL [https://www.mountainproject.com/route/1/a]. *)
Theorem find_routes_from_area_links (area_url : string) (s : session) (soup : node) :
  (get_page area_url s).1 = Some soup →
  (∀ out s',
     find_routes_from_area area_url None s (Ok out) s' →
     NoDup out
     ∧ (∀ u, u ∈ out ↔
             ∃ href, href ∈ anchor_hrefs soup
                     ∧ PyStr.contains "/route/" href = true
                     ∧ Urllib.urljoin base_url href = Ok u)
     ∧ Forall (λ u, Urllib.is_absolute u = true) out)
  ∧ (∀ links, route_links soup = Ok links →
       ∃ out, find_routes_from_area area_url None s (Ok out) (get_page area_url s).2)
  ∧ (anchor_hrefs soup = ["/route/1/a"; "/route/1/a"; "/area/2/b"] →
     find_routes_from_area area_url None s
       (Ok ["https://www.mountainproject.com/route/1/a"]) (get_page area_url s).2
     ∧ ∀ out s', find_routes_from_area area_url None s (Ok out) s' →
                 out = ["https://www.mountainproject.com/route/1/a"]).
Proof.
  intros Hp.
  assert (Hmain : ∀ out s',
     find_routes_from_area area_url None s (Ok out) s' →
     NoDup out
     ∧ (∀ u, u ∈ out ↔
             ∃ href, href ∈ anchor_hrefs soup
                     ∧ PyStr.contains "/route/" href = true
                     ∧ Urllib.urljoin base_url href = Ok u)
     ∧ Forall (λ u, Urllib.is_absolute u = true) out).
  { intros out s' Hrun.
    destruct (find_routes_ok_inv _ _ _ _ _ _ Hp Hrun) as (links & l & Hl & Hs & ->).
    simpl. destruct (list_of_set_spec _ _ Hs) as [Hnd Hin].
    assert (Hu : ∀ u, u ∈ l ↔
             ∃ href, href ∈ anchor_hrefs soup
                     ∧ PyStr.contains "/route/" href = true
                     ∧ Urllib.urljoin base_url href = Ok u).
    { intros u. rewrite Hin. unfold route_links in Hl.
      rewrite (for_each_elem_of _ _ _ u Hl). split.
      - intros (h & Hh & Hj). apply list_elem_of_In, filter_In in Hh as [Hh Hc].
        apply list_elem_of_In in Hh. eauto.
      - intros (h & Hh & Hc & Hj). exists h. split; [|done].
        apply list_elem_of_In, filter_In. split; [by apply list_elem_of_In|done]. }
    split; [done|]. split; [done|].
    apply Forall_forall. intros u (h & _ & _ & Hj)%Hu.
    eapply urljoin_absolute; [apply base_url_resolving|done]. }
  split; [exact Hmain|]. split.
  - intros links Hl. destruct (list_of_set_exists links) as [l Hs].
    exists (truncate None l). by eapply find_routes_links.
  - intros Hh.
    destruct (find_routes_example_page area_url s soup Hp Hh) as [Hl Hset].
    split.
    + pose proof (find_routes_links area_url None s soup _ _ Hp Hl
                    (proj2 (Hset _) eq_refl)) as Hrun.
      exact Hrun.
    + intros out s' Hrun.
      destruct (find_routes_ok_inv _ _ _ _ _ _ Hp Hrun) as (links & l & Hl' & Hs & ->).
      rewrite Hl in Hl'. injection Hl' as <-. simpl. by apply Hset.
Qed.

(** C6 on the page with the three links of the example. *)
Lemma find_routes_from_area_links_witness :
  let anchor h := Elem "a" None {[ "href" := h ]} [] in
  let page := soup_of [anchor "/route/1/a"; anchor "/route/1/a"; anchor "/area/2/b"] in
  let s := {| requests := 0; network := λ _ _, Some page |} in
  find_routes_from_area "https://www.mountainproject.com/area/2/b" None s
    (Ok ["https://www.mountainproject.com/route/1/a"])
    {| requests := 1; network := λ _ _, Some page |}.
Proof.
  intros anchor page s.
  exact (proj1 (proj2 (proj2 (find_routes_from_area_links
                                "https://www.mountainproject.com/area/2/b" s page eq_refl))
                 eq_refl)).
Defined.

(** C9. With [max_routes] equal to 0 the runs of [find_routes_from_area]
    are those with no maximum at all: nothing is cut, and every URL that
    was discovered is in the list returned. *)
Theorem find_routes_from_area_max_zero (area_url : string) (s : session) :
  (∀ out s', find_routes_from_area area_url (Some 0%Z) s out s'
             ↔ find_routes_from_area area_url None s out s')
  ∧ (∀ soup links out s',
       (get_page area_url s).1 = Some soup →
       route_links soup = Ok links →
       find_routes_from_area area_url (Some 0%Z) s (Ok out) s' →
       (∀ u, u ∈ links → u ∈ out)
       ∧ length out = size (list_to_set links : gset string)).
Proof.
  split.
  - intros out s'. split; intros Hrun; inversion Hrun; subst.
    + by apply find_routes_no_page.
    + by eapply find_routes_raise.
    + change (truncate (Some 0%Z) l) with (truncate None l).
      by eapply find_routes_links.
    + by apply find_routes_no_page.
    + by eapply find_routes_raise.
    + change (truncate None l) with (truncate (Some 0%Z) l).
      by eapply find_routes_links.
  - intros soup links out s' Hp Hl Hrun.
    destruct (find_routes_ok_inv _ _ _ _ _ _ Hp Hrun) as (links' & l & Hl' & Hs & ->).
    rewrite Hl in Hl'. injection Hl' as <-.
    change (truncate (Some 0%Z) l) with l.
    split.
    + intros u Hu. by apply (list_of_set_spec _ _ Hs).
    + unfold list_of_set in Hs. by rewrite Hs.
Qed.

(** C9 on the same page: with a maximum of 0 the one route URL is returned. *)
Lemma find_routes_from_area_max_zero_witness :
  let anchor h := Elem "a" None {[ "href" := h ]} [] in
  let page := soup_of [anchor "/route/1/a"; anchor "/route/1/a"; anchor "/area/2/b"] in
  let s := {| requests := 0; network := λ _ _, Some page |} in
  find_routes_from_area "https://www.mountainproject.com/area/2/b" (Some 0%Z) s
    (Ok ["https://www.mountainproject.com/route/1/a"])
    {| requests := 1; network := λ _ _, Some page |}.
Proof.
  intros anchor page s.
  apply (proj2 (proj1 (find_routes_from_area_max_zero _ s) _ _)).
  destruct (find_routes_example_page "https://www.mountainproject.com/area/2/b"
              s page eq_refl eq_refl) as [Hl Hset].
  exact (find_routes_links _ None s page _ _ eq_refl Hl (proj2 (Hset _) eq_refl)).
Defined.

(** On a page with two route links, a maximum of 1 cuts the list to one
    URL (which one is open), a maximum of 0 cuts nothing. *)
Example find_routes_maximum_one_or_zero :
  let anchor h := Elem "a" None {[ "href" := h ]} [] in
  let page := soup_of [anchor "/route/1/a"; anchor "/route/2/b"] in
  let s := {| requests := 0; network := λ _ _, Some page |} in
  (∀ out s', find_routes_from_area "https://www.mountainproject.com/area/9/c"
               (Some 1%Z) s (Ok out) s' → length out = 1%nat)
  ∧ (∀ out s', find_routes_from_area "https://www.mountainproject.com/area/9/c"
                 (Some 0%Z) s (Ok out) s' → length out = 2%nat).
Proof.
  intros anchor page s.
  assert (Hl : route_links page = Ok ["https://www.mountainproject.com/route/1/a";
                                       "https://www.mountainproject.com/route/2/b"])
    by (vm_compute; reflexivity).
  assert (Hlen : ∀ l, list_of_set ["https://www.mountainproject.com/route/1/a";
                                   "https://www.mountainproject.com/route/2/b"] l →
                      length l = 2%nat).
  { intros l Hs. unfold list_of_set in Hs. rewrite Hs. vm_compute. reflexivity. }
  split; intros out s' Hrun;
    destruct (find_routes_ok_inv _ _ s page _ _ eq_refl Hrun) as (links & l & Hl' & Hs & ->);
    rewrite Hl in Hl'; injection Hl' as <-; specialize (Hlen l Hs).
  - unfold truncate, slice_to. simpl. rewrite length_take. lia.
  - exact Hlen.
Qed.

(** ** Binary64 arithmetic *)

Section float_arithmetic.
Local Open Scope Z_scope.









End float_arithmetic.

(** ** The CSV exporter *)

Section csv_export.
Local Open Scope Z_scope.










(** The [float] 4.0 is the one written 4.0, and the one the integer 4
    converts to. *)
Example tenths_40 :
  Float.tenths 40 = S754_finite false 4503599627370496 (-50)
  ∧ Float.tenths 40 = binary_normalize 53 1024 4 0 false.
Proof. vm_compute. done. Qed.


(** The sixth value of a line is the [avg_rating] entry of its row. *)
Lemma writerow_avg_rating row :
  writerow row !! 5%nat = Some (default (CStr "") (row !! "avg_rating")).
Proof. reflexivity. Qed.


Lemma write_rows_spec routes lines :
  ∃ rows,
    (write_rows routes lines).1 = lines ++ rows
    ∧ ((write_rows routes lines).2 = Ok () →
       Forall2 (λ route line, ∃ row, csv_row route = Ok row ∧ line = writerow row)
         routes rows)
    ∧ (Forall (λ route, ∃ row, csv_row route = Ok row) routes →
       (write_rows routes lines).2 = Ok ()).
Proof.
  revert lines. induction routes as [|route rest IH]; intros lines; simpl.
  - exists []. rewrite app_nil_r. split; [done|]. split; [constructor|done].
  - destruct (csv_row route) as [row|e] eqn:E.
    + destruct (IH (lines ++ [writerow row])) as (rows & H1 & H2 & H3).
      exists (writerow row :: rows). rewrite H1, <- app_assoc. split; [done|]. split.
      * intros Hok. constructor; [eauto|by apply H2].
      * intros Hall. apply H3. by apply Forall_cons in Hall as [_ ?].
    + exists []. rewrite app_nil_r. split; [done|]. split; [done|].
      intros Hall. apply Forall_cons in Hall as [[row Hrow] _]. congruence.
Qed.



(** The file of one route with the stars 3 and 5: the header, and the
    line of the route, whose sixth value is 4.0. *)
Example save_to_csv_one_route :
  let route :=
    {| name := "The Nose"; difficulty := "5.9"; description := ""; access_info := "";
       user_ratings := [ {| stars := Some 3; user := None; comment := None |};
                         {| stars := Some 5; user := None; comment := None |} ];
       location := {| latitude := None; longitude := None;
                      area_hierarchy := Some ["California"; "Yosemite"];
                      elevation := None |};
       images := []; url := "https://www.mountainproject.com/route/1/the-nose" |} in
  (save_to_csv [route] "routes.csv" ∅).2 = Ok ()
  ∧ (save_to_csv [route] "routes.csv" ∅).1 !! "routes.csv"
    = Some [ header;
             [ CStr "The Nose"; CStr "5.9"; CStr ""; CStr "";
               CNum (Float.PyInt 2); CNum (Float.PyFloat (Float.tenths 40));
               CStr "California, Yosemite"; CStr "N/A"; CStr "N/A"; CStr "N/A";
               CNum (Float.PyInt 0);
               CStr "https://www.mountainproject.com/route/1/the-nose" ] ]
  ∧ (save_to_csv [] "routes.csv" ∅).1 !! "routes.csv" = None.
Proof. vm_compute. done. Qed.
End csv_export.

(** ** The extractors on sample pages *)

(** A widget with two filled stars next to a profile link and a
    paragraph, and a widget with no filled star: one rating. *)
Example extract_user_ratings_sample :
  extract_user_ratings
    (soup_of
       [ Elem "div" (Some ["review"]) ∅
           [ Elem "div" (Some ["star-rating"]) ∅
               [ Elem "i" (Some ["fa-star"; "filled"]) ∅ [];
                 Elem "span" (Some ["star"; "active"]) ∅ [];
                 Elem "i" (Some ["fa-star"]) ∅ [] ];
             Elem "a" None {[ "href" := "/user/7/bob" ]} [Str NavigableString "Bob"];
             Elem "p" None ∅ [Str NavigableString " Clean cracks. "] ];
         Elem "span" (Some ["scoreStars"]) ∅ [Elem "i" (Some ["fa-star"]) ∅ []] ])
  = [ {| stars := Some 2%Z; user := Some "Bob"; comment := Some "Clean cracks." |} ].
Proof. vm_compute. reflexivity. Qed.

(** Two [meta] tags with coordinates: the first one is read, and both
    keys are set from it. *)
Example extract_location_sample :
  extract_location
    (soup_of
       [ Elem "meta" None {[ "content" := "width=device-width" ]} [];
         Elem "meta" None {[ "content" := "37.5, -119.25" ]} [];
         Elem "meta" None {[ "content" := "1,2" ]} [] ])
  = Ok {| latitude := Some (S754_finite false 5277655813324800 (-47));
          longitude := Some (S754_finite true 8391472743186432 (-46));
          area_hierarchy := None; elevation := None |}
  ∧ Float.of_string "37.5" = Ok (SFdiv 53 1024 (binary_normalize 53 1024 75 0 false)
                                    (binary_normalize 53 1024 2 0 false)).
Proof. vm_compute. done. Qed.

(** C7, amended, on a page with the heading-style marker only and on a page
    with no marker. *)
Lemma difficulty_first_match_witness :
  extract_route_basic_info
    (soup_of [ Elem "h2" (Some ["inline-block"; "mr-2"]) ∅
                 [Str NavigableString " 5.10a "] ]) !! "difficulty"
  = Some "5.10a"
  ∧ extract_route_basic_info
      (soup_of [Elem "h1" None ∅ [Str NavigableString "The Nose"]]) !! "difficulty"
    = Some "N/A".
Proof.
  split.
  - etrans.
    + refine (proj1 (difficulty_first_match
                       (soup_of [ Elem "h2" (Some ["inline-block"; "mr-2"]) ∅
                                    [Str NavigableString " 5.10a "] ])) 3%nat _
                (Elem "h2" (Some ["inline-block"; "mr-2"]) ∅
                   [Str NavigableString " 5.10a "]) eq_refl eq_refl _).
      intros [|[|[|j]]] c Hj Hc; [| | |lia]; injection Hc as <-; reflexivity.
    + reflexivity.
  - apply (proj1 (proj2 (difficulty_first_match _))).
    intros crit d Hc Hd. vm_compute in Hd.
    unfold grade_criteria in Hc.
    repeat (apply elem_of_cons in Hd as [->|Hd];
            [repeat (apply elem_of_cons in Hc as [->|Hc]; [reflexivity|]);
             by apply elem_of_nil in Hc|]).
    by apply elem_of_nil in Hd.
Defined.

(** ** The document tree *)

Lemma node_induction (P : node → Prop) :
  (∀ k s, P (Str k s)) →
  (∀ nm cl at_ cs, Forall P cs → P (Elem nm cl at_ cs)) →
  ∀ n, P n.
Proof.
  intros HS HE. fix IH 1. intros [k s|nm cl at_ cs]; [apply HS|].
  apply HE. induction cs as [|c cs IHcs]; constructor; [apply IH|exact IHcs].
Qed.

Lemma walk_elements up up' n : element <$> walk up n = element <$> walk up' n.
Proof.
  revert up up'. induction n as [k s|nm cl at_ cs IH] using node_induction;
    intros up up'; [done|].
  simpl. generalize (Elem nm cl at_ cs :: up) (Elem nm cl at_ cs :: up').
  intros a a'. induction IH as [|c cs Hc _ IHcs]; [done|].
  rewrite !fmap_cons, !fmap_app. simpl. f_equal. f_equal; [apply Hc|apply IHcs].
Qed.

(** The descendants of a tag: each child, followed by its own. *)
Lemma descendants_elem nm cl at_ cs :
  descendants (Elem nm cl at_ cs) = flat_map (λ c, c :: descendants c) cs.
Proof.
  unfold descendants. simpl. generalize [Elem nm cl at_ cs]. intros a.
  induction cs as [|c cs IH]; [done|].
  rewrite fmap_cons, fmap_app. simpl. f_equal. f_equal; [apply walk_elements|apply IH].
Qed.

Lemma find_elem crit nm cl at_ cs : find crit (Elem nm cl at_ cs) = find_in crit cs.
Proof. unfold find, find_all, find_in. by rewrite descendants_elem. Qed.

Lemma find_in_cons crit c cs :
  find_in crit (c :: cs)
  = if crit c then Some c
    else match find crit c with
         | Some x => Some x
         | None => find_in crit cs
         end.
Proof.
  unfold find_in, find, find_all. simpl. destruct (crit c); [done|].
  rewrite List.filter_app. by destruct (List.filter crit (descendants c)).
Qed.

Lemma update_first_elem crit f nm cl at_ cs :
  update_first crit f (Elem nm cl at_ cs)
  = Elem nm cl at_ <$> update_children crit f cs.
Proof.
  simpl. f_equal. induction cs as [|c cs IH]; [done|]. simpl. by rewrite IH.
Qed.

Lemma decompose_all_elem crit nm cl at_ cs :
  decompose_all crit (Elem nm cl at_ cs) = Elem nm cl at_ (decompose_children crit cs).
Proof.
  simpl. f_equal. induction cs as [|c cs IH]; [done|]. simpl. by rewrite IH.
Qed.

Lemma same_tag_refl x : same_tag x x.
Proof. by destruct x. Qed.

Lemma same_tag_decompose_all crit x : same_tag (decompose_all crit x) x.
Proof. by destruct x. Qed.

Lemma shallow_decompose_all p crit x : shallow p → p (decompose_all crit x) = p x.
Proof. intros Hp. apply Hp, same_tag_decompose_all. Qed.

(** No tag is found where none was to be found: [update_first] changes
    nothing then. *)
Lemma update_first_none crit f n : find crit n = None → update_first crit f n = None.
Proof.
  induction n as [k s|nm cl at_ cs IH] using node_induction; [done|].
  rewrite find_elem, update_first_elem. intros H.
  assert (update_children crit f cs = None) as ->; [|done].
  induction IH as [|c cs Hc _ IHcs]; [done|].
  rewrite find_in_cons in H. simpl. destruct (crit c); [done|].
  destruct (find crit c); [done|]. rewrite (Hc eq_refl). by rewrite (IHcs H).
Qed.

(** The tag that [find] returns is the one [update_first] changes, and it
    is the one [find] returns afterwards. *)
Lemma update_first_find crit f n d :
  shallow crit → (∀ x, same_tag (f x) x) →
  find crit n = Some d →
  ∃ n', update_first crit f n = Some n' ∧ same_tag n' n ∧ find crit n' = Some (f d).
Proof.
  intros Hcrit Hf. revert d.
  induction n as [k s|nm cl at_ cs IH] using node_induction; intros d; [done|].
  rewrite find_elem, update_first_elem. intros H.
  assert (∃ cs', update_children crit f cs = Some cs' ∧ find_in crit cs' = Some (f d))
    as (cs' & -> & Hfind).
  { induction IH as [|c cs Hc _ IHcs]; [done|].
    rewrite find_in_cons in H. simpl. destruct (crit c) eqn:Ec.
    - injection H as <-. eexists. split; [done|].
      rewrite find_in_cons. by rewrite (Hcrit _ _ (Hf c)), Ec.
    - destruct (find crit c) as [x|] eqn:Efc.
      + injection H as <-. destruct (Hc _ eq_refl) as (c' & -> & Hs & Hfc').
        eexists. split; [done|]. rewrite find_in_cons.
        by rewrite (Hcrit _ _ Hs), Ec, Hfc'.
      + rewrite (update_first_none _ _ _ Efc).
        destruct (IHcs H) as (cs' & -> & Hcs'). eexists. split; [done|].
        by rewrite find_in_cons, Ec, Efc. }
  eexists. split; [done|]. split; [done|]. by rewrite find_elem.
Qed.

(** A tag that [f] leaves as it is: [update_first] leaves the document as
    it is. *)
Lemma update_first_fixed crit f n d :
  find crit n = Some d → f d = d → update_first crit f n = Some n.
Proof.
  revert d. induction n as [k s|nm cl at_ cs IH] using node_induction; intros d; [done|].
  rewrite find_elem, update_first_elem. intros H Hfd.
  assert (update_children crit f cs = Some cs) as ->; [|done].
  induction IH as [|c cs Hc _ IHcs]; [done|].
  rewrite find_in_cons in H. simpl. destruct (crit c) eqn:Ec.
  - injection H as ->. by rewrite Hfd.
  - destruct (find crit c) as [x|] eqn:Efc.
    + injection H as ->. by rewrite (Hc _ eq_refl Hfd).
    + rewrite (update_first_none _ _ _ Efc). by rewrite (IHcs H).
Qed.

(** Whatever is in a tree after [decompose_all] was in it, contents
    apart, and [crit] refuses it. *)
Lemma descendants_decompose_all crit n x :
  shallow crit →
  x ∈ descendants (decompose_all crit n) →
  crit x = false ∧ ∃ y, y ∈ descendants n ∧ same_tag x y.
Proof.
  intros Hcrit. revert x.
  induction n as [k s|nm cl at_ cs IH] using node_induction; intros x.
  { by intros ?%elem_of_nil. }
  rewrite decompose_all_elem, !descendants_elem.
  induction IH as [|c cs Hc _ IHcs]; simpl.
  { by intros ?%elem_of_nil. }
  destruct (crit c) eqn:Ec.
  - intros (Hx & y & Hy & Hs)%IHcs. split; [done|]. exists y. split; [|done].
    apply list_elem_of_further, elem_of_app. by right.
  - simpl. intros [->|[Hx|Hx]%elem_of_app]%elem_of_cons.
    + split; [by rewrite shallow_decompose_all|]. exists c.
      split; [apply list_elem_of_here|apply same_tag_decompose_all].
    + destruct (Hc _ Hx) as (Hcx & y & Hy & Hs). split; [done|]. exists y.
      split; [|done]. apply list_elem_of_further, elem_of_app. by left.
    + destruct (IHcs Hx) as (Hcx & y & Hy & Hs). split; [done|]. exists y.
      split; [|done]. apply list_elem_of_further, elem_of_app. by right.
Qed.

Lemma decompose_all_idempotent crit n :
  shallow crit → decompose_all crit (decompose_all crit n) = decompose_all crit n.
Proof.
  intros Hcrit. induction n as [k s|nm cl at_ cs IH] using node_induction; [done|].
  rewrite !decompose_all_elem. f_equal.
  induction IH as [|c cs Hc _ IHcs]; [done|]. simpl.
  destruct (crit c) eqn:Ec; [done|]. simpl.
  by rewrite shallow_decompose_all, Ec, Hc, IHcs.
Qed.

(** Whatever is in a document after [update_first] with [decompose_all]
    was in it, contents apart. *)
Lemma descendants_update_first crit q n n' x :
  update_first crit (decompose_all q) n = Some n' →
  shallow q →
  x ∈ descendants n' → ∃ y, y ∈ descendants n ∧ same_tag x y.
Proof.
  intros Hu Hq. revert n' Hu x.
  induction n as [k s|nm cl at_ cs IH] using node_induction; intros n' Hu x; [done|].
  rewrite update_first_elem in Hu.
  destruct (update_children crit (decompose_all q) cs) as [cs'|] eqn:E; [|done].
  injection Hu as <-. rewrite !descendants_elem.
  revert cs' E. induction IH as [|c cs Hc _ IHcs]; intros cs' E; [done|].
  simpl in E. destruct (crit c).
  - injection E as <-. simpl. intros [->|[Hx|Hx]%elem_of_app]%elem_of_cons.
    + exists c. split; [apply list_elem_of_here|apply same_tag_decompose_all].
    + apply descendants_decompose_all in Hx as (_ & y & Hy & Hs); [|done].
      exists y. split; [|done]. apply list_elem_of_further, elem_of_app. by left.
    + exists x. split; [|apply same_tag_refl].
      apply list_elem_of_further, elem_of_app. by right.
  - destruct (update_first crit (decompose_all q) c) as [c'|] eqn:Ec.
    + injection E as <-. simpl. intros [->|[Hx|Hx]%elem_of_app]%elem_of_cons.
      * exists c. split; [apply list_elem_of_here|].
        destruct c as [|nm' cl' at_' cs0]; [done|]. rewrite update_first_elem in Ec.
        destruct (update_children _ _ cs0); [|done]. by injection Ec as <-.
      * destruct (Hc _ eq_refl _ Hx) as (y & Hy & Hs). exists y. split; [|done].
        apply list_elem_of_further, elem_of_app. by left.
      * exists x. split; [|apply same_tag_refl].
        apply list_elem_of_further, elem_of_app. by right.
    + destruct (update_children crit (decompose_all q) cs) as [cs0|] eqn:Ecs; [|done].
      injection E as <-. simpl. intros [->|[Hx|Hx]%elem_of_app]%elem_of_cons.
      * exists c. split; [apply list_elem_of_here|apply same_tag_refl].
      * exists x. split; [|apply same_tag_refl].
        apply list_elem_of_further, elem_of_app. by left.
      * destruct (IHcs _ eq_refl Hx) as (y & Hy & Hs). exists y. split; [|done].
        apply list_elem_of_further, elem_of_app. by right.
Qed.

(** ** The description extractor changes the document once *)

Lemma shallow_named_class nm c : shallow (λ n, named nm n && class_ c n).
Proof.
  intros [k s|nm1 cl1 at1 cs1] [k' s'|nm2 cl2 at2 cs2] H; simpl in H; try done.
  destruct H as (-> & -> & ->). done.
Qed.

Lemma shallow_named_attr nm a v : shallow (λ n, named nm n && attr_is a v n).
Proof.
  intros [k s|nm1 cl1 at1 cs1] [k' s'|nm2 cl2 at2 cs2] H; simpl in H; try done.
  destruct H as (-> & -> & ->). done.
Qed.

Lemma shallow_script_or_style : shallow script_or_style.
Proof.
  intros [k s|nm1 cl1 at1 cs1] [k' s'|nm2 cl2 at2 cs2] H; simpl in H; try done.
  destruct H as (-> & -> & ->). done.
Qed.

Lemma find_update_first_none p crit q n n' :
  shallow p → shallow q →
  update_first crit (decompose_all q) n = Some n' →
  find p n = None → find p n' = None.
Proof.
  intros Hp Hq Hu Hn. apply find_none. intros x Hx.
  destruct (descendants_update_first _ _ _ _ _ Hu Hq Hx) as (y & Hy & Hs).
  rewrite (Hp _ _ Hs). by eapply find_none in Hn.
Qed.

Lemma find_all_decompose_all crit n :
  shallow crit → find_all crit (decompose_all crit n) = [].
Proof.
  intros Hcrit. unfold find_all.
  destruct (List.filter crit (descendants (decompose_all crit n))) as [|x l] eqn:E; [done|].
  assert (Hin : In x (List.filter crit (descendants (decompose_all crit n))))
    by (rewrite E; by left).
  apply filter_In in Hin as [Hin Hx]. apply list_elem_of_In in Hin.
  apply descendants_decompose_all in Hin as [Hf _]; [|done]. congruence.
Qed.

(** What [extract_description] does to a document in which [crit] finds
    the content block. *)
Lemma extract_description_block crit soup d :
  shallow crit →
  find crit soup = Some d →
  ∃ soup',
    update_first crit (decompose_all script_or_style) soup = Some soup'
    ∧ find crit soup' = Some (decompose_all script_or_style d)
    ∧ update_first crit (decompose_all script_or_style) soup' = Some soup'
    ∧ ∀ p, shallow p → find p soup = None → find p soup' = None.
Proof.
  intros Hcrit Hd.
  destruct (update_first_find crit (decompose_all script_or_style) soup d Hcrit
              (same_tag_decompose_all _) Hd) as (soup' & Hu & _ & Hf).
  exists soup'. split; [done|]. split; [done|]. split.
  - eapply update_first_fixed; [exact Hf|].
    apply decompose_all_idempotent, shallow_script_or_style.
  - intros p Hp. eapply find_update_first_none; [done|apply shallow_script_or_style|done].
Qed.

(** X1. [extract_description] changes the document it is given at most
    once: run on the document it leaves, it returns the same description
    and leaves that document as it is. In the document it leaves, the
    content block holds no [script] and no [style] tag. *)
Theorem extract_description_settles (soup : node) :
  extract_description (extract_description soup).2 = extract_description soup
  ∧ ∀ d, desc_section (extract_description soup).2 = Some d →
         find_all script_or_style d = [].
Proof.
  pose proof (shallow_named_class "div" "fr-view") as Hfr.
  pose proof (shallow_named_attr "div" "id" "route-description") as Hrd.
  fold is_fr_view in Hfr. fold is_route_description in Hrd.
  assert (H : ∀ t soup', extract_description soup = (t, soup') →
                extract_description soup' = (t, soup')
                ∧ ∀ d, desc_section soup' = Some d → find_all script_or_style d = []).
  { intros t soup'. unfold extract_description at 1, desc_section at 1.
    destruct (find is_fr_view soup) as [d|] eqn:E1; simpl.
    - destruct (extract_description_block _ _ _ Hfr E1) as (soup1 & Hu & Hf & Hu' & _).
      rewrite Hu. simpl. intros [= <- <-].
      unfold extract_description, desc_section. rewrite Hf. simpl.
      rewrite Hu'. simpl. split.
      + by rewrite decompose_all_idempotent by apply shallow_script_or_style.
      + intros d' [= <-]. apply find_all_decompose_all, shallow_script_or_style.
    - destruct (find is_route_description soup) as [d|] eqn:E2; simpl.
      + destruct (extract_description_block _ _ _ Hrd E2) as (soup1 & Hu & Hf & Hu' & Hn).
        rewrite Hu. simpl. intros [= <- <-].
        unfold extract_description, desc_section.
        rewrite (Hn _ Hfr E1), Hf. simpl. rewrite Hu'. simpl. split.
        * by rewrite decompose_all_idempotent by apply shallow_script_or_style.
        * intros d' [= <-]. apply find_all_decompose_all, shallow_script_or_style.
      + intros [= <- <-]. unfold extract_description, desc_section.
        rewrite E1, E2. simpl. done. }
  destruct (extract_description soup) as [t soup'] eqn:E. simpl. by apply H.
Qed.

(** ** What a fetched page can still fail on *)





Lemma extract_images_sources soup base :
  extract_images soup base
  = (urls ← for_each (Urllib.urljoin base) (image_sources soup);
     Ok (foldl append_new [] urls)).
Proof. unfold extract_images, image_sources. apply select_images_spec. Qed.




(** ** The batch driver and the session *)







(** ** The link discoverer: failures and the maximum *)

Lemma get_page_session u s :
  (get_page u s).2 = {| requests := S (requests s); network := network s |}.
Proof. reflexivity. Qed.



(** X6. With a maximum [n] that is not 0, a run of [find_routes_from_area]
    that returns, returns a list without duplicates of URLs that were
    discovered; it holds [n] of them when [n] is positive, or all of them
    when there are fewer, and all but [-n] of them when [n] is negative,
    or none when there are fewer. *)
Theorem find_routes_from_area_maximum (area_url : string) (n : Z) (s : session)
  (soup : node) (links out : list string) (s' : session) :
  network s (requests s) area_url = Some soup →
  route_links soup = Ok links →
  find_routes_from_area area_url (Some n) s (Ok out) s' →
  NoDup out
  ∧ (∀ u, u ∈ out → u ∈ links)
  ∧ length out
    = let distinct := size (list_to_set links : gset string) in
      if (n =? 0)%Z then distinct
      else if (0 <? n)%Z then Nat.min (Z.to_nat n) distinct
      else (distinct - Z.to_nat (- n))%nat.
Proof.
  intros Hp Hl Hrun.
  destruct (find_routes_ok_inv _ _ _ _ _ _ Hp Hrun) as (links' & l & Hl' & Hs & ->).
  rewrite Hl in Hl'. injection Hl' as <-.
  destruct (list_of_set_spec _ _ Hs) as [Hnd Hin].
  assert (Hlen : length l = size (list_to_set links : gset string)).
  { unfold list_of_set in Hs. by rewrite Hs. }
  assert (Hsub : truncate (Some n) l `sublist_of` l).
  { unfold truncate, slice_to. destruct (n =? 0)%Z; [done|].
    destruct (0 <=? n)%Z; apply sublist_take. }
  split; [by eapply sublist_NoDup|]. split.
  - intros u Hu. apply Hin. by eapply elem_of_sublist.
  - cbv zeta. rewrite <- Hlen. unfold truncate, slice_to.
    destruct (Z.eqb_spec n 0) as [->|Hne]; [done|].
    destruct (Z.ltb_spec 0 n) as [Hpos|Hneg].
    + rewrite (proj2 (Z.leb_le 0 n)) by lia. by rewrite length_take.
    + rewrite (proj2 (Z.leb_gt 0 n)) by lia. rewrite length_take. lia.
Qed.

(** X6 on a page with three route links and the maximum 2. *)
Lemma find_routes_from_area_maximum_witness :
  let anchor h := Elem "a" None {[ "href" := h ]} [] in
  let page := soup_of [anchor "/route/1/a"; anchor "/route/2/b"; anchor "/route/3/c"] in
  let s := {| requests := 0; network := λ _ _, Some page |} in
  let links := [ "https://www.mountainproject.com/route/1/a";
                 "https://www.mountainproject.com/route/2/b";
                 "https://www.mountainproject.com/route/3/c" ] in
  let out := truncate (Some 2%Z) (elements (list_to_set links : gset string)) in
  NoDup out
  ∧ (∀ u, u ∈ out → u ∈ links)
  ∧ length out
    = let distinct := size (list_to_set links : gset string) in
      if (2 =? 0)%Z then distinct
      else if (0 <? 2)%Z then Nat.min (Z.to_nat 2) distinct
      else (distinct - Z.to_nat (- 2))%nat.
Proof.
  intros anchor page s links out.
  assert (Hl : route_links page = Ok links) by (vm_compute; reflexivity).
  assert (Hs : list_of_set links (elements (list_to_set links : gset string)))
    by (by unfold list_of_set).
  exact (find_routes_from_area_maximum
           "https://www.mountainproject.com/area/1/a" 2 s page links out _ eq_refl Hl
           (find_routes_links _ (Some 2%Z) s page links _ eq_refl Hl Hs)).
Defined.

(** ** The location extractor: area names and elevation *)

Lemma elevation_at_digits s g :
  Re.elevation_at s = Some g → g ≠ "" ∧ PyStr.forallb PyStr.is_digit g = true.
Proof.
  unfold Re.elevation_at.
  pose proof (span_spec PyStr.is_digit s) as (_ & Hd & _).
  destruct (PyStr.span PyStr.is_digit s) as [d r]. simpl in Hd.
  case_bool_decide as Hne; [done|].
  destruct (_ || _); [|done]. by intros [= <-].
Qed.

Lemma elevation_search_digits s g :
  Re.elevation_search s = Some g → g ≠ "" ∧ PyStr.forallb PyStr.is_digit g = true.
Proof.
  induction s as [|c s IH]; simpl.
  - done.
  - destruct (Re.elevation_at (String c s)) as [g'|] eqn:E; [|done].
    intros [= <-]. by eapply elevation_at_digits.
Qed.

Lemma extract_location_parts soup :
  ∃ loc0,
    extract_location soup = Ok (add_elevation soup (add_area_hierarchy soup loc0))
    ∧ area_hierarchy loc0 = None ∧ elevation loc0 = None.
Proof.
  unfold extract_location.
  destruct (scan_coordinates_spec (find_all (named "meta") soup)
              {| latitude := None; longitude := None;
                 area_hierarchy := None; elevation := None |})
    as (loc & -> & Ha & He & _).
  simpl. eauto.
Qed.

Lemma add_elevation_area_hierarchy soup l :
  area_hierarchy (add_elevation soup l) = area_hierarchy l.
Proof. unfold add_elevation. repeat case_match; done. Qed.

Lemma add_area_hierarchy_elevation soup l :
  elevation (add_area_hierarchy soup l) = elevation l.
Proof. unfold add_area_hierarchy. by destruct (or_find _ _). Qed.

(** X7. The [area_hierarchy] of the location that [extract_location]
    returns is set exactly when a breadcrumb container is found ([nav] of
    class [breadcrumbs], else [div] of class [breadcrumb]); it then holds
    the stripped texts of the links of that container, in document order,
    without the empty ones: no area name is the empty string, and a
    container without links gives the empty list. *)
Theorem extract_location_area_hierarchy (soup : node) :
  ∃ loc,
    extract_location soup = Ok loc
    ∧ area_hierarchy loc
      = (λ b, List.filter (λ t, negb (bool_decide (t = "")))
                (get_text "" true <$> find_all (named "a") b))
        <$> or_find (find (λ n, named "nav" n && class_ "breadcrumbs" n) soup)
                    (find (λ n, named "div" n && class_ "breadcrumb" n) soup)
    ∧ (∀ names, area_hierarchy loc = Some names → Forall (λ t, t ≠ "") names).
Proof.
  destruct (extract_location_parts soup) as (loc0 & -> & Ha & He).
  eexists. split; [done|]. rewrite add_elevation_area_hierarchy.
  assert (Hh : area_hierarchy (add_area_hierarchy soup loc0)
    = (λ b, List.filter (λ t, negb (bool_decide (t = "")))
              (get_text "" true <$> find_all (named "a") b))
      <$> or_find (find (λ n, named "nav" n && class_ "breadcrumbs" n) soup)
                  (find (λ n, named "div" n && class_ "breadcrumb" n) soup)).
  { unfold add_area_hierarchy. by destruct (or_find _ _). }
  split; [exact Hh|]. rewrite Hh. intros names Hn.
  destruct (or_find _ _) as [b|]; [|done]. injection Hn as <-.
  apply Forall_forall. intros t Ht. apply list_elem_of_In, filter_In in Ht as [_ Ht].
  apply negb_true_iff, bool_decide_eq_false_1 in Ht. done.
Qed.

(** X8. The [elevation] of the location that [extract_location] returns,
    when set, is a string of decimal digits that is not empty (the unit
    is dropped). It is absent when no string of the document contains
    the word [elevation], in any case of the letters. *)
Theorem extract_location_elevation (soup : node) :
  ∃ loc,
    extract_location soup = Ok loc
    ∧ (∀ g, elevation loc = Some g →
            g ≠ "" ∧ PyStr.forallb PyStr.is_digit g = true)
    ∧ ((∀ d, d ∈ descendants soup → is_string_matching Re.elevation_word d = false) →
       elevation loc = None).
Proof.
  destruct (extract_location_parts soup) as (loc0 & -> & Ha & He).
  eexists. split; [done|].
  pose proof (add_area_hierarchy_elevation soup loc0) as He'. rewrite He in He'.
  unfold add_elevation. cbv zeta. split.
  - intros g. destruct (head _) as [e|]; [|rewrite He'; done].
    destruct (Re.elevation_search _) as [g'|] eqn:E; [|rewrite He'; done].
    simpl. intros [= <-]. by eapply elevation_search_digits.
  - intros Hnone.
    assert (find_all_located (is_string_matching Re.elevation_word) soup = []) as ->;
      [|exact He'].
    unfold find_all_located.
    destruct (List.filter _ (walk [] soup)) as [|w l] eqn:E; [done|]. exfalso.
    assert (Hin : In w (List.filter
                          (λ d, is_string_matching Re.elevation_word (element d))
                          (walk [] soup))) by (rewrite E; by left).
    apply filter_In in Hin as [Hin Hw]. apply list_elem_of_In in Hin.
    rewrite Hnone in Hw; [done|]. unfold descendants.
    by apply list_elem_of_fmap_2.
Qed.

(** ** Ratings that share a parent *)

Lemma rating_of_user_comment w r :
  rating_of w = Some r →
  user r
  = (parent ← head (ancestors w);
     get_text "" true
       <$> find (λ n, named "a" n && attr_search "href" Re.user_link n) parent)
  ∧ comment r
    = (parent ← head (ancestors w);
       get_text "" true
         <$> or_find (find (λ n, named "div" n && class_ "comment" n) parent)
                     (find (named "p") parent)).
Proof.
  unfold rating_of. destruct (0 <? filled_stars (element w))%Z; [|done].
  intros [= <-]. destruct (head (ancestors w)) as [parent|]; [|done]. simpl.
  destruct (or_find _ _); destruct (find _ parent); done.
Qed.

(** X9. The [user] and the [comment] of a rating are looked up in the
    parent of its widget and nowhere else: two widgets of a page with the
    same parent get the same user and the same comment, whatever their
    stars. *)
Theorem ratings_of_one_parent (soup : node) (i j : nat) (w1 w2 : located)
  (r1 r2 : Rating) :
  rating_elements soup !! i = Some w1 →
  rating_elements soup !! j = Some w2 →
  head (ancestors w1) = head (ancestors w2) →
  rating_of w1 = Some r1 →
  rating_of w2 = Some r2 →
  user r1 = user r2 ∧ comment r1 = comment r2.
Proof.
  intros _ _ Hp H1 H2.
  destruct (rating_of_user_comment _ _ H1) as [-> ->].
  destruct (rating_of_user_comment _ _ H2) as [-> ->].
  by rewrite Hp.
Qed.

(** X9 on a review block with two widgets, of one and of two filled stars,
    one profile link and one paragraph. *)
Lemma ratings_of_one_parent_witness :
  let star := Elem "i" (Some ["fa-star"; "filled"]) ∅ [] in
  let soup :=
    soup_of
      [ Elem "div" (Some ["review"]) ∅
          [ Elem "div" (Some ["star-rating"]) ∅ [star];
            Elem "a" None {[ "href" := "/user/7/bob" ]} [Str NavigableString "Bob"];
            Elem "p" None ∅ [Str NavigableString "Clean cracks."];
            Elem "div" (Some ["star-rating"]) ∅ [star; star] ] ] in
  let bob n :=
    {| stars := Some n; user := Some "Bob"; comment := Some "Clean cracks." |} in
  extract_user_ratings soup = [bob 1%Z; bob 2%Z]
  ∧ user (bob 1%Z) = user (bob 2%Z) ∧ comment (bob 1%Z) = comment (bob 2%Z).
Proof.
  intros star soup bob. split; [vm_compute; reflexivity|].
  destruct (rating_elements soup !! 0%nat) as [w1|] eqn:E1;
    [|vm_compute in E1; discriminate E1].
  destruct (rating_elements soup !! 1%nat) as [w2|] eqn:E2;
    [|vm_compute in E2; discriminate E2].
  refine (ratings_of_one_parent soup 0 1 w1 w2 (bob 1%Z) (bob 2%Z) E1 E2 _ _ _).
  - vm_compute in E1, E2. injection E1 as <-. injection E2 as <-. reflexivity.
  - vm_compute in E1. injection E1 as <-. vm_compute. reflexivity.
  - vm_compute in E2. injection E2 as <-. vm_compute. reflexivity.
Defined.

(** ** The access-info extractor *)



(** ** The images extractor with no base URL *)

(** X11. With the empty string as base URL, [extract_images] resolves
    nothing: it returns the sources as they stand in the page, relative
    ones included, the first occurrence of each, and never raises. *)
Theorem extract_images_empty_base (soup : node) :
  extract_images soup "" = Ok (dedup_first (image_sources soup)).
Proof.
  rewrite extract_images_sources.
  assert (for_each (Urllib.urljoin "") (image_sources soup) = Ok (image_sources soup))
    as ->.
  { induction (image_sources soup) as [|x l IH]; simpl; [done|]. by rewrite IH. }
  simpl. by rewrite foldl_append_new, filter_not_in_nil.
Qed.

(** ** The CSV exporter: the file, the lines and the cells *)

(** X12. [save_to_csv] opens the file for writing, so a file of an
    earlier call is replaced, not appended to: saving [routes] over the
    file of [others] ends as saving [routes] alone does. An empty list
    is the exception and leaves the file of [others] in place. No file
    of another name changes in either case. *)
Theorem save_to_csv_overwrites (routes others : list Route) (filename : string)
  (fs : gmap string (list (list cell))) :
  routes ≠ [] →
  save_to_csv routes filename (save_to_csv others filename fs).1
  = save_to_csv routes filename fs
  ∧ save_to_csv [] filename (save_to_csv others filename fs).1
    = ((save_to_csv others filename fs).1, Ok ())
  ∧ ∀ other, other ≠ filename →
             (save_to_csv routes filename (save_to_csv others filename fs).1).1 !! other
             = fs !! other.
Proof.
  intros Hne.
  assert (∃ fs1, ((save_to_csv others filename fs).1 = fs
                  ∨ (save_to_csv others filename fs).1 = <[filename := fs1]> fs))
    as [fs1 Hfs].
  { unfold save_to_csv. destruct others as [|o rest']; [exists []; by left|].
    destruct (write_rows (o :: rest') [header]) as [lines' res']. exists lines'. by right. }
  generalize dependent (save_to_csv others filename fs).1. intros fs' Hfs.
  unfold save_to_csv. destruct routes as [|r rest]; [done|].
  destruct (write_rows (r :: rest) [header]) as [lines res]. simpl.
  split; [|split; [done|]].
  - destruct Hfs as [-> | ->]; [done|]. by rewrite insert_insert_eq.
  - intros other Hother. rewrite lookup_insert_ne by done.
    destruct Hfs as [-> | ->]; [done|]. by rewrite lookup_insert_ne.
Qed.

(** X12 on two lists of one route each. *)
Lemma save_to_csv_overwrites_witness :
  let route n :=
    {| name := n; difficulty := "5.9"; description := ""; access_info := "";
       user_ratings := [];
       location := {| latitude := None; longitude := None;
                      area_hierarchy := None; elevation := None |};
       images := []; url := "" |} in
  save_to_csv [route "The Nose"] "routes.csv"
    (save_to_csv [route "Freerider"] "routes.csv" ∅).1
  = save_to_csv [route "The Nose"] "routes.csv" ∅.
Proof.
  intros route.
  exact (proj1 (save_to_csv_overwrites [route "The Nose"] [route "Freerider"]
                  "routes.csv" ∅ ltac:(discriminate))).
Defined.

Lemma csv_row_dom route row :
  csv_row route = Ok row → dom row = (list_to_set fieldnames : gset string).
Proof.
  unfold csv_row. destruct (avg_rating (user_ratings route)) as [avg|e]; [|done].
  cbv beta iota zeta delta [mbind result_bind].
  intros [= <-]. rewrite !dom_insert_L, dom_empty_L. reflexivity.
Qed.

Lemma write_rows_widths routes lines :
  Forall (λ line, length line = 12%nat) lines →
  Forall (λ line, length line = 12%nat) (write_rows routes lines).1.
Proof.
  revert lines. induction routes as [|r rest IH]; intros lines Hl; [done|].
  simpl. destruct (csv_row r) as [row|e]; [|done].
  apply IH. apply Forall_app. split; [done|]. by constructor.
Qed.

Lemma write_rows_head routes lines first :
  head lines = Some first → head (write_rows routes lines).1 = Some first.
Proof.
  revert lines. induction routes as [|r rest IH]; intros lines Hl; [done|].
  simpl. destruct (csv_row r) as [row|e]; [|done].
  apply IH. by destruct lines.
Qed.

(** X13. The row of a route has exactly the twelve field names as keys,
    so the writer meets no unknown key and fills in no missing one; and
    whenever [save_to_csv] writes a file, also when it is stopped by an
    exception, the file starts with the header and every line of it has
    twelve values. *)
Theorem save_to_csv_line_widths (routes : list Route) (filename : string)
  (fs : gmap string (list (list cell))) :
  (∀ route row, csv_row route = Ok row →
                dom row = (list_to_set fieldnames : gset string))
  ∧ (routes ≠ [] →
     ∃ lines,
       (save_to_csv routes filename fs).1 !! filename = Some lines
       ∧ head lines = Some header
       ∧ Forall (λ line, length line = 12%nat) lines).
Proof.
  split; [apply csv_row_dom|]. intros Hne. unfold save_to_csv.
  destruct routes as [|r rest]; [done|].
  pose proof (write_rows_widths (r :: rest) [header] ltac:(by constructor)) as Hw.
  pose proof (write_rows_head (r :: rest) [header] header eq_refl) as Hh.
  destruct (write_rows (r :: rest) [header]) as [lines res]. simpl in *.
  exists lines. by rewrite lookup_insert_eq.
Qed.

Lemma take_length_le n s : (String.length (PyStr.take n s) ≤ n)%nat.
Proof.
  revert s. induction n as [|n IH]; intros [|c s]; simpl; try lia.
  specialize (IH s). lia.
Qed.

Lemma take_length_lt n s :
  (n < String.length s)%nat → String.length (PyStr.take n s) = n.
Proof.
  revert s. induction n as [|n IH]; intros [|c s]; simpl; try lia.
  intros H. rewrite IH; lia.
Qed.

Lemma append_length (a b : string) :
  String.length (a ++ b)%string = (String.length a + String.length b)%nat.
Proof.
  induction a as [|c a IH]; [done|]. rewrite append_cons. simpl. by rewrite IH.
Qed.

(** The text [s[:n] + '...' if len(s) > n else s]: a short text stays,
    a long one becomes its first [n] characters and three dots. *)
Lemma ellipsis_spec n s :
  ((String.length s ≤ n)%nat → ellipsis n s = s)
  ∧ ((n < String.length s)%nat →
     ellipsis n s = (PyStr.take n s ++ "...")%string
     ∧ String.length (ellipsis n s) = (n + 3)%nat).
Proof.
  unfold ellipsis. split; intros H.
  - by rewrite (proj2 (Nat.ltb_ge n (String.length s))).
  - rewrite (proj2 (Nat.ltb_lt n (String.length s)) H). split; [done|].
    rewrite append_length, take_length_lt by done. reflexivity.
Qed.

(** X14. The [description] and [access_info] cells of a row hold the
    text of the route when it has at most 500 (300) characters, and
    otherwise its first 500 (300) characters followed by three dots: a
    cell of 503 (303) characters, so a text of 501 or 502 characters
    gets longer. *)
Theorem csv_row_text_cells (route : Route) (row : gmap string cell) :
  csv_row route = Ok row →
  row !! "description" = Some (CStr (ellipsis 500 (description route)))
  ∧ row !! "access_info" = Some (CStr (ellipsis 300 (access_info route)))
  ∧ ((String.length (description route) ≤ 500)%nat →
     ellipsis 500 (description route) = description route)
  ∧ ((500 < String.length (description route))%nat →
     ellipsis 500 (description route)
     = (PyStr.take 500 (description route) ++ "...")%string
     ∧ String.length (ellipsis 500 (description route)) = 503%nat)
  ∧ ((String.length (access_info route) ≤ 300)%nat →
     ellipsis 300 (access_info route) = access_info route)
  ∧ ((300 < String.length (access_info route))%nat →
     ellipsis 300 (access_info route)
     = (PyStr.take 300 (access_info route) ++ "...")%string
     ∧ String.length (ellipsis 300 (access_info route)) = 303%nat).
Proof.
  unfold csv_row. destruct (avg_rating (user_ratings route)) as [avg|e]; simpl; [|done].
  intros [= <-].
  split; [reflexivity|]. split; [reflexivity|].
  pose proof (ellipsis_spec 500 (description route)) as [H1 H2].
  pose proof (ellipsis_spec 300 (access_info route)) as [H3 H4].
  done.
Qed.

(** X14 on a route with a description of 501 characters: the cell has 503. *)
Lemma csv_row_text_cells_witness :
  let route :=
    {| name := "The Nose"; difficulty := "5.9";
       description := string_of_list_ascii (List.repeat "a"%char 501);
       access_info := "Walk up the talus.";
       user_ratings := [];
       location := {| latitude := None; longitude := None;
                      area_hierarchy := None; elevation := None |};
       images := []; url := "" |} in
  ∃ row,
    csv_row route = Ok row
    ∧ row !! "description" = Some (CStr (ellipsis 500 (description route)))
    ∧ String.length (ellipsis 500 (description route)) = 503%nat
    ∧ ellipsis 300 (access_info route) = "Walk up the talus.".
Proof.
  intros route.
  destruct (csv_row route) as [row|e] eqn:E; [|discriminate E].
  exists row. split; [reflexivity|].
  destruct (csv_row_text_cells route row E) as (H1 & _ & _ & H4 & H5 & _).
  split; [exact H1|]. split.
  - apply H4. apply Nat.ltb_lt. reflexivity.
  - apply H5. apply Nat.leb_le. reflexivity.
Defined.

Lemma csv_row_raise route e :
  csv_row route = Raise e → e = OverflowError ∧ user_ratings route ≠ [].
Proof.
  unfold csv_row, avg_rating. destruct (user_ratings route) as [|r rs] eqn:Er; [done|].
  unfold Float.int_true_div.
  destruct (Z.of_nat (length (r :: rs)) =? 0)%Z eqn:E0.
  { apply Z.eqb_eq in E0. simpl in E0. lia. }
  destruct (Float.of_signed_ratio _ _ _); simpl; intros [=]; by subst.
Qed.

Lemma write_rows_app pre post lines :
  (write_rows pre lines).2 = Ok () →
  write_rows (pre ++ post) lines = write_rows post (write_rows pre lines).1.
Proof.
  revert lines. induction pre as [|r rest IH]; intros lines; [done|].
  simpl. destruct (csv_row r); [apply IH|done].
Qed.

(** X15. The rows are written one at a time, so an exception in the
    middle of the list leaves a file behind: the header and the lines of
    the routes before the one whose row failed, and nothing of the
    routes after it. The exception is not caught, and it can only be the
    [OverflowError] of the division in the mean of the stars. *)
Theorem save_to_csv_stops_at_exception (pre post : list Route) (bad : Route) (e : exn)
  (filename : string) (fs : gmap string (list (list cell))) :
  Forall (λ route, ∃ row, csv_row route = Ok row) pre →
  csv_row bad = Raise e →
  e = OverflowError
  ∧ (save_to_csv (pre ++ bad :: post) filename fs).2 = Raise e
  ∧ ∃ rows,
      Forall2 (λ route line, ∃ row, csv_row route = Ok row ∧ line = writerow row) pre rows
      ∧ (save_to_csv (pre ++ bad :: post) filename fs).1
        = <[filename := header :: rows]> fs.
Proof.
  intros Hpre Hbad. split; [by apply csv_row_raise in Hbad as [? _]|].
  destruct (write_rows_spec pre [header]) as (rows & H1 & H2 & H3).
  specialize (H3 Hpre). specialize (H2 H3).
  pose proof (write_rows_app pre (bad :: post) [header] H3) as Happ.
  rewrite H1 in Happ. simpl in Happ. rewrite Hbad in Happ.
  unfold save_to_csv. destruct (pre ++ bad :: post) as [|r rest] eqn:El.
  { by destruct pre. }
  rewrite Happ. simpl. split; [done|]. by exists rows.
Qed.

(** X15 on three routes, the second with more stars than a [float] holds. *)
Lemma save_to_csv_stops_at_exception_witness :
  let route n s :=
    {| name := n; difficulty := "5.9"; description := ""; access_info := "";
       user_ratings := [ {| stars := Some s; user := None; comment := None |} ];
       location := {| latitude := None; longitude := None;
                      area_hierarchy := None; elevation := None |};
       images := []; url := "" |} in
  let routes := [route "The Nose" 3; route "Freerider" (2 ^ 1100); route "Salathe" 4]%Z in
  (save_to_csv routes "routes.csv" ∅).2 = Raise OverflowError
  ∧ ∃ rows,
      length rows = 1%nat
      ∧ (save_to_csv routes "routes.csv" ∅).1 = <["routes.csv" := header :: rows]> ∅.
Proof.
  intros route routes.
  assert (Hpre : Forall (λ r, ∃ row, csv_row r = Ok row) [route "The Nose" 3%Z]).
  { constructor; [|constructor].
    destruct (csv_row (route "The Nose" 3%Z)) as [row|e] eqn:E; [by exists row|].
    vm_compute in E. discriminate E. }
  assert (Hbad : csv_row (route "Freerider" (2 ^ 1100)%Z) = Raise OverflowError).
  { vm_compute. reflexivity. }
  destruct (save_to_csv_stops_at_exception [route "The Nose" 3%Z] [route "Salathe" 4%Z]
              (route "Freerider" (2 ^ 1100)%Z) OverflowError "routes.csv" ∅ Hpre Hbad)
    as (_ & Hres & rows & Hrows & Hfile).
  split; [exact Hres|]. exists rows. split; [|exact Hfile].
  apply Forall2_length in Hrows. simpl in Hrows. by symmetry.
Defined.
